(** * MCP / Azure OpenAI chat client: a shallow embedding of [client.py]

    The client is a thin orchestration layer between three collaborators:
    the MCP tool server (reached through [ClientSession]), the chat
    completion endpoint, and the terminal.  The collaborators are kept
    abstract (record [Env]); the code of [MCPClient] is written out in a
    state-and-exception monad that threads the collaborators' state, the
    client object and a log of every request that leaves the client. *)

From Stdlib Require Import String Ascii List Bool Arith ZArith Lia.
Import ListNotations.
Local Open Scope string_scope.
Local Open Scope list_scope.
Set Warnings "-register-all".

(** ** Text

    A character is a code point below 256; [str.strip] and [str.lower]
    are given on that range. *)

Definition nl : string := String (ascii_of_nat 10) EmptyString.

(** [str.isspace] for one character: TAB..CR, FS..US, space, NEL, NBSP. *)
Definition isspace (c : ascii) : bool :=
  let n := nat_of_ascii c in
  (((9 <=? n) && (n <=? 13)) || ((28 <=? n) && (n <=? 32))
   || (n =? 133) || (n =? 160))%nat.

(** [str.lower] for one character: A..Z and the Latin-1 capitals
    (U+00C0..U+00DE without the multiplication sign) move up by 32. *)
Definition lower_char (c : ascii) : ascii :=
  let n := nat_of_ascii c in
  if (((65 <=? n) && (n <=? 90))
      || ((192 <=? n) && (n <=? 222) && negb (n =? 215)))%nat
  then ascii_of_nat (n + 32) else c.

Fixpoint lower (s : string) : string :=
  match s with
  | EmptyString => EmptyString
  | String c r => String (lower_char c) (lower r)
  end.

Fixpoint lstrip (s : string) : string :=
  match s with
  | EmptyString => EmptyString
  | String c r => if isspace c then lstrip r else s
  end.

Fixpoint rstrip (s : string) : string :=
  match s with
  | EmptyString => EmptyString
  | String c r =>
      match rstrip r with
      | EmptyString => if isspace c then EmptyString else String c EmptyString
      | r' => String c r'
      end
  end.

Definition strip (s : string) : string := rstrip (lstrip s).

(** [s.endswith(suffix)] *)
Definition endswith (s suffix : string) : bool :=
  let n := String.length s in
  let m := String.length suffix in
  (m <=? n)%nat && String.eqb (substring (n - m) m s) suffix.

(** [sep.join(parts)] *)
Definition join (sep : string) (parts : list string) : string :=
  String.concat sep parts.

(** ** Python values

    The values that cross the client's boundaries: decoded JSON, tool
    schemas, tool results, message contents.  A float is kept as its
    IEEE-754 bit pattern; a dict is its list of items in insertion order. *)

Inductive pyval : Type :=
| PNone
| PBool (b : bool)
| PInt (z : Z)
| PFloat (bits : Z)
| PStr (s : string)
| PList (items : list pyval)
| PDict (items : list (string * pyval)).

Fixpoint dict_get (items : list (string * pyval)) (key : string) : option pyval :=
  match items with
  | [] => None
  | (k, v) :: rest => if String.eqb k key then Some v else dict_get rest key
  end.

(** [d.get(key)] on any value: [None] unless [d] is a dict holding [key]. *)
Definition py_get (d : pyval) (key : string) : option pyval :=
  match d with
  | PDict items => dict_get items key
  | _ => None
  end.

Definition of_optstr (o : option string) : pyval :=
  match o with Some s => PStr s | None => PNone end.

(** ** Exceptions *)

Inductive exn_class : Type :=
| AttributeError | IndexError | KeyError | TypeError | ValueError
| JSONDecodeError | UnicodeDecodeError | EOFError
| RuntimeError          (* any other subclass of Exception *)
| KeyboardInterrupt | SystemExit | CancelledError.

Record exn : Type := mk_exn { exn_cls : exn_class; exn_str : string }.

(** [isinstance(e, Exception)]: the last three derive from
    [BaseException] only. *)
Definition is_Exception (c : exn_class) : bool :=
  match c with
  | KeyboardInterrupt | SystemExit | CancelledError => false
  | _ => true
  end.

Definition is_UnicodeDecodeError (c : exn_class) : bool :=
  match c with UnicodeDecodeError => true | _ => false end.

Inductive Outcome (A : Type) : Type :=
| Ok (a : A)
| Raise (e : exn).
Arguments Ok {A} a.
Arguments Raise {A} e.

(** ** Data exchanged with the collaborators *)

(** An entry of [list_tools().tools]. *)
Record Tool : Type := mk_Tool {
  tool_name : string;
  tool_description : option string;
  tool_inputSchema : pyval
}.

(** A transcript entry, [{"role": ..., "content": ...}]. *)
Record Message : Type := mk_Message {
  msg_role : string;
  msg_content : pyval
}.

(** [tool_call.function] *)
Record FunctionCall : Type := mk_FunctionCall {
  fn_name : string;
  fn_arguments : string
}.

Record ToolCall : Type := mk_ToolCall {
  tc_id : string;
  tc_function : FunctionCall
}.

(** An attribute that [hasattr] may find missing. *)
Inductive Attr (A : Type) : Type :=
| Missing
| Has (a : A).
Arguments Missing {A}.
Arguments Has {A} a.

(** [choice.message] *)
Record ChatMessage : Type := mk_ChatMessage {
  cm_role : string;
  cm_tool_calls : option (list ToolCall);
  cm_content : Attr (option string)
}.

Record Choice : Type := mk_Choice { ch_message : ChatMessage }.

Record Response : Type := mk_Response { choices : list Choice }.

(** Everything that leaves the client, in program order. *)
Inductive Event : Type :=
| EvSpawn (command : string) (args : list string)
| EvOpenSession
| EvInitialize
| EvListTools
| EvCallTool (name : string) (arguments : pyval)
| EvComplete (messages : list Message) (tools : option (list pyval))
| EvInput (prompt : string)
| EvPrint (text : string).

(** ** The collaborators *)

Record Env : Type := mk_Env {
  World : Type;
  Transport : Type;
  Session : Type;
  (* mcp.client.stdio.stdio_client, entered on the exit stack *)
  stdio_client :
    string -> list string -> World -> Outcome (Transport * Transport) * World;
  (* mcp.ClientSession, entered on the exit stack *)
  ClientSession : Transport -> Transport -> World -> Outcome Session * World;
  initialize : Session -> World -> Outcome unit * World;
  list_tools : Session -> World -> Outcome (list Tool) * World;
  call_tool : Session -> string -> pyval -> World -> Outcome pyval * World;
  (* client.chat.completions.create(model, max_tokens, messages[, tools]) *)
  completions_create :
    list Message -> option (list pyval) -> World -> Outcome Response * World;
  (* json.loads on a str: the decoded value, or the exception it raises
     (JSONDecodeError for text that is no JSON; ValueError or
     RecursionError on the limits of the decoder) *)
  json_loads : string -> exn + pyval;
  (* str(v), as an f-string or print renders a value *)
  py_str : pyval -> string;
  (* AzureOpenAI(api_key=..., api_version=..., base_url=...), built from
     the process environment inside MCPClient.__init__ *)
  AzureOpenAI : World -> Outcome unit * World;
  (* what input raises once standard input yields no further line:
     EOFError at its end, or KeyboardInterrupt, UnicodeDecodeError, ... *)
  stdin_raises : World -> exn
}.

(** The fields of [self] that the methods read and write. *)
Record MCPClient (E : Env) : Type := mk_MCPClient {
  session : option (Session E);
  stdio : option (Transport E);
  write : option (Transport E)
}.
Arguments mk_MCPClient {E}.
Arguments session {E}.
Arguments stdio {E}.
Arguments write {E}.

Record State (E : Env) : Type := mk_State {
  world : World E;
  self : MCPClient E;
  log : list Event
}.
Arguments mk_State {E}.
Arguments world {E}.
Arguments self {E}.
Arguments log {E}.

(** __init__ *)
Definition init {E : Env} (w : World E) : State E :=
  mk_State w (mk_MCPClient None None None) [].

(** ** The monad of the client's methods *)

Definition M (E : Env) (A : Type) : Type := State E -> Outcome A * State E.

Definition ret {E A} (a : A) : M E A := fun st => (Ok a, st).

Definition bind {E A B} (m : M E A) (k : A -> M E B) : M E B :=
  fun st =>
    match m st with
    | (Ok a, st') => k a st'
    | (Raise e, st') => (Raise e, st')
    end.

Definition raise {E A} (c : exn_class) (text : string) : M E A :=
  fun st => (Raise (mk_exn c text), st).

(** [try: body  except ...: handler], where [handler e] is [None] for an
    exception that no clause matches. *)
Definition try_except {E A} (body : M E A) (handler : exn -> option (M E A))
  : M E A :=
  fun st =>
    match body st with
    | (Ok a, st') => (Ok a, st')
    | (Raise e, st') =>
        match handler e with
        | Some h => h st'
        | None => (Raise e, st')
        end
    end.

(** A request to a collaborator: logged, then answered by the world. *)
Definition request {E A} (ev : Event)
  (f : World E -> Outcome A * World E) : M E A :=
  fun st =>
    let (r, w) := f (world st) in
    (r, mk_State w (self st) (log st ++ [ev])).

Definition emit {E} (ev : Event) : M E unit :=
  fun st => (Ok tt, mk_State (world st) (self st) (log st ++ [ev])).

Definition get_self {E} : M E (MCPClient E) := fun st => (Ok (self st), st).

Definition set_self {E} (c : MCPClient E) : M E unit :=
  fun st => (Ok tt, mk_State (world st) c (log st)).

Declare Scope py_scope.
Delimit Scope py_scope with py.
Notation "x <- m ;; k" := (bind m (fun x => k))
  (at level 61, m at next level, right associativity) : py_scope.
Notation "m ;; k" := (bind m (fun _ => k))
  (at level 61, right associativity) : py_scope.
Local Open Scope py_scope.

(** [for x in xs: s = body(s, x)] *)
Fixpoint for_each {E A S} (body : S -> A -> M E S) (xs : list A) (s : S)
  : M E S :=
  match xs with
  | [] => ret s
  | x :: rest => s' <- body s x ;; for_each body rest s'
  end.

(** [print(text)] *)
Definition print {E} (text : string) : M E unit := emit (EvPrint text).

(** ** [MCPClient.connect_to_server] *)

Definition connect_to_server {E : Env} (server_script_path : string) : M E unit :=
  let is_python := endswith server_script_path ".py" in
  let is_js := endswith server_script_path ".js" in
  if negb (is_python || is_js)
  then raise ValueError "Server script must be a .py or .js file"
  else
    let command := if is_python then "python" else "node" in
    stdio_transport <-
      request (EvSpawn command [server_script_path])
              (stdio_client E command [server_script_path]) ;;
    c <- get_self ;;
    set_self (mk_MCPClient (session c)
                (Some (fst stdio_transport)) (Some (snd stdio_transport))) ;;
    s <- request EvOpenSession
           (ClientSession E (fst stdio_transport) (snd stdio_transport)) ;;
    c <- get_self ;;
    set_self (mk_MCPClient (Some s) (stdio c) (write c)) ;;
    request EvInitialize (initialize E s) ;;
    tools <- request EvListTools (list_tools E s) ;;
    print (nl ++ "Connected to server with tools: "
              ++ py_str E (PList (map (fun tool => PStr (tool_name tool)) tools))).

(** ** [MCPClient.process_query] *)

(** [self.session.<method>]: an attribute lookup on [None] fails. *)
Definition the_session {E : Env} (method : string) : M E (Session E) :=
  c <- get_self ;;
  match session c with
  | Some s => ret s
  | None =>
      raise AttributeError
        ("'NoneType' object has no attribute '" ++ method ++ "'")
  end.

(** The list comprehension that builds [available_tools]. *)
Definition available_tools (tools : list Tool) : list pyval :=
  map (fun tool =>
         PDict [ ("type", PStr "function");
                 ("description", of_optstr (tool_description tool));
                 ("function",
                   PDict [ ("name", PStr (tool_name tool));
                           ("parameters", tool_inputSchema tool) ]) ])
      tools.

(** [json.loads(text)] *)
Definition loads {E : Env} (text : string) : M E pyval :=
  match json_loads E text with
  | inr v => ret v
  | inl e => fun st => (Raise e, st)
  end.

(** [result['content']] *)
Definition subscript_content {E : Env} (result : pyval) : M E pyval :=
  match result with
  | PDict items =>
      match dict_get items "content" with
      | Some v => ret v
      | None => raise KeyError "'content'"
      end
  | PList _ => raise TypeError "list indices must be integers or slices, not str"
  | PStr _ => raise TypeError "string indices must be integers, not 'str'"
  | PNone => raise TypeError "'NoneType' object is not subscriptable"
  | PBool _ => raise TypeError "'bool' object is not subscriptable"
  | PInt _ => raise TypeError "'int' object is not subscriptable"
  | PFloat _ => raise TypeError "'float' object is not subscriptable"
  end.

(** [response.choices[0].message.content] *)
Definition first_content {E : Env} (response : Response) : M E (option string) :=
  match choices response with
  | [] => raise IndexError "list index out of range"
  | c :: _ =>
      match cm_content (ch_message c) with
      | Has text => ret text
      | Missing =>
          raise AttributeError "'ChatCompletionMessage' object has no attribute 'content'"
      end
  end.

(** [message.tool_calls], with [None] read as no calls. *)
Definition requested_calls (message : ChatMessage) : list ToolCall :=
  match cm_tool_calls message with
  | Some calls => calls
  | None => []
  end.

(** [hasattr(message, 'content') and message.content], when true, gives
    the text. *)
Definition truthy_content (message : ChatMessage) : option string :=
  match cm_content message with
  | Has (Some text) => if String.eqb text "" then None else Some text
  | _ => None
  end.

Definition is_assistant (message : ChatMessage) : bool :=
  String.eqb (cm_role message) "assistant".

(** The three local lists of [process_query]. *)
Record Locals : Type := mk_Locals {
  messages : list Message;
  tool_results : list (string * pyval);
  final_text : list (option string)
}.

(** [if hasattr(message, 'content') and message.content:
       messages.append({"role": "assistant", "content": message.content})] *)
Definition echo (message : ChatMessage) : list Message :=
  match truthy_content message with
  | Some text => [mk_Message "assistant" (PStr text)]
  | None => []
  end.

Definition trace_line {E : Env} (tool_name : string) (tool_args : pyval) : string :=
  "[Calling tool " ++ tool_name ++ " with args " ++ py_str E tool_args ++ "]".

(** Body of [for tool_call in message.tool_calls]. *)
Definition dispatch {E : Env} (message : ChatMessage) (l : Locals)
  (tool_call : ToolCall) : M E Locals :=
  let tool_name := fn_name (tc_function tool_call) in
  tool_args <- loads (fn_arguments (tc_function tool_call)) ;;
  s <- the_session "call_tool" ;;
  result <- request (EvCallTool tool_name tool_args)
              (call_tool E s tool_name tool_args) ;;
  let tool_results1 := tool_results l ++ [(tool_name, result)] in
  let final_text1 := final_text l ++ [Some (trace_line (E:=E) tool_name tool_args)] in
  let messages1 := messages l ++ echo message in
  content <- subscript_content result ;;
  let messages2 := messages1 ++ [mk_Message "user" content] in
  response <- request (EvComplete messages2 None)
                (completions_create E messages2 None) ;;
  text <- first_content response ;;
  ret (mk_Locals messages2 tool_results1 (final_text1 ++ [text])).

(** [hasattr(message, 'content')] *)
Definition has_content (message : ChatMessage) : bool :=
  match cm_content message with Has _ => true | Missing => false end.

(** [message.content], read after [hasattr] has answered yes. *)
Definition content_of (message : ChatMessage) : option string :=
  match cm_content message with Has text => text | Missing => None end.

(** Truth value of a list. *)
Definition nonempty {A} (xs : list A) : bool :=
  match xs with [] => false | _ :: _ => true end.

(** Body of [for choice in response.choices]. *)
Definition inspect {E : Env} (l : Locals) (choice : Choice) : M E Locals :=
  let message := ch_message choice in
  if is_assistant message && nonempty (requested_calls message)
  then for_each (dispatch message) (requested_calls message) l
  else if is_assistant message && has_content message
  then ret (mk_Locals (messages l) (tool_results l)
                      (final_text l ++ [content_of message]))
  else ret l.

(** [[text for text in final_text if text is not None]] *)
Fixpoint not_None (xs : list (option string)) : list string :=
  match xs with
  | [] => []
  | Some text :: rest => text :: not_None rest
  | None :: rest => not_None rest
  end.

(** [messages = [{"role": "user", "content": query}]] *)
Definition first_transcript (query : string) : list Message :=
  [mk_Message "user" (PStr query)].

Definition process_query {E : Env} (query : string) : M E string :=
  let messages0 := first_transcript query in
  s <- the_session "list_tools" ;;
  tools <- request EvListTools (list_tools E s) ;;
  let tools_arg := available_tools tools in
  response <- request (EvComplete messages0 (Some tools_arg))
                (completions_create E messages0 (Some tools_arg)) ;;
  l <- for_each inspect (choices response) (mk_Locals messages0 [] []) ;;
  ret (join nl (not_None (final_text l))).

(** ** [MCPClient.chat_loop] *)

(** The two [except] clauses around [process_query]. *)
Definition report {E : Env} (e : exn) : option (M E unit) :=
  if is_UnicodeDecodeError (exn_cls e)
  then Some (print ("Decoding error: " ++ exn_str e))
  else if is_Exception (exn_cls e)
  then Some (print ("Error: " ++ exn_str e))
  else None.

(** The body of the [try] statement. *)
Definition answer_query {E : Env} (query : string) : M E unit :=
  response <- process_query query ;; print (nl ++ response).

(** [while True] over the lines that [input] returns before it first
    raises; what it raises then ([EOFError] at the end of the input) is
    the terminal's business. *)
Fixpoint read_loop {E : Env} (lines : list string) : M E unit :=
  emit (EvInput (nl ++ "Query: ")) ;;
  match lines with
  | [] => fun st => (Raise (stdin_raises E (world st)), st)
  | line :: rest =>
      let query := strip line in
      if String.eqb (lower query) "quit"
      then ret tt
      else
        try_except (answer_query query) report ;;
        read_loop rest
  end.

Definition chat_loop {E : Env} (lines : list string) : M E unit :=
  print (nl ++ "MCP Client Started!") ;;
  print "Type your queries or 'quit' to exit." ;;
  read_loop lines.

(** ** Reading the log *)

(** The tool names passed to [call_tool], in order. *)
Fixpoint called_tools (evs : list Event) : list string :=
  match evs with
  | [] => []
  | EvCallTool name _ :: rest => name :: called_tools rest
  | _ :: rest => called_tools rest
  end.

(** The number of completion requests. *)
Fixpoint completions (evs : list Event) : nat :=
  match evs with
  | [] => 0
  | EvComplete _ _ :: rest => S (completions rest)
  | _ :: rest => completions rest
  end.

(** The tool calls that [inspect] dispatches for one choice. *)
Definition calls_of (choice : Choice) : list ToolCall :=
  if is_assistant (ch_message choice)
  then requested_calls (ch_message choice) else [].

(** All tool calls requested by one response, in emission order. *)
Definition initial_calls (response : Response) : list ToolCall :=
  flat_map calls_of (choices response).

(** One call to the tool server followed at once by one completion
    request without tool declarations, for each tool call in turn.  The
    transcript only grows: each round adds the assistant text (if any)
    and one user message that carries the tool's content, and its
    completion request sends the transcript as it then stands. *)
Inductive rounds (E : Env)
  : list Message -> list ToolCall -> list Event -> list Message -> Prop :=
| rounds_nil ms : rounds E ms [] [] ms
| rounds_cons ms tool_call rest args said content evs ms' :
    json_loads E (fn_arguments (tc_function tool_call)) = inr args ->
    Forall (fun m => msg_role m = "assistant") said ->
    rounds E (ms ++ said ++ [mk_Message "user" content]) rest evs ms' ->
    rounds E ms (tool_call :: rest)
      (EvCallTool (fn_name (tc_function tool_call)) args
         :: EvComplete (ms ++ said ++ [mk_Message "user" content]) None
         :: evs)
      ms'.

(** The state right after [input] has shown its prompt. *)
Definition prompted {E : Env} (st : State E) : State E :=
  mk_State (world st) (self st) (log st ++ [EvInput (nl ++ "Query: ")]).

(** ** Predicates on runs *)

(** A computation only ever appends to the log. *)
Definition grows {E A} (m : M E A) : Prop :=
  forall st o st', m st = (o, st') -> exists d, log st' = log st ++ d.

(** [reaches query st tools message l tool_call st'] : started in [st],
    [process_query query] has listed the tools [tools], obtained the
    first response, gone through the choices before [message] and through
    the calls of [message] before [tool_call] without an exception, and
    now stands in front of [tool_call] with locals [l] in state [st']. *)
Definition reaches {E : Env} (query : string) (st : State E)
  (tools : list Tool) (message : ChatMessage) (l : Locals)
  (tool_call : ToolCall) (st' : State E) : Prop :=
  exists s w1 response w2 before after done todo l1 st1,
    session (self st) = Some s
    /\ list_tools E s (world st) = (Ok tools, w1)
    /\ completions_create E (first_transcript query)
         (Some (available_tools tools)) w1 = (Ok response, w2)
    /\ choices response = before ++ mk_Choice message :: after
    /\ is_assistant message = true
    /\ requested_calls message = done ++ tool_call :: todo
    /\ for_each inspect before
         (mk_Locals (first_transcript query) [] [])
         (mk_State w2 (self st)
            (log st ++ [EvListTools;
                        EvComplete (first_transcript query)
                          (Some (available_tools tools))]))
       = (Ok l1, st1)
    /\ for_each (dispatch message) done l1 st1 = (Ok l, st').

(** The text a message contributes: its content, nothing for [None]. *)
Definition shown (content : option string) : string :=
  match content with Some text => text | None => "" end.

(** ** The shapes the specification names *)

(** The flat FunctionDeclaration record of the data model,
    [{type: "function", name, description, parameters}], read key by key. *)
Definition flat_declaration (tool : Tool) (decl : pyval) : Prop :=
  py_get decl "type" = Some (PStr "function")
  /\ py_get decl "name" = Some (PStr (tool_name tool))
  /\ py_get decl "description" = Some (of_optstr (tool_description tool))
  /\ py_get decl "parameters" = Some (tool_inputSchema tool).

(** The record [process_query] builds: name and parameters sit one level
    down, under the key "function". *)
Definition nested_declaration (tool : Tool) (decl : pyval) : Prop :=
  py_get decl "type" = Some (PStr "function")
  /\ py_get decl "description" = Some (of_optstr (tool_description tool))
  /\ py_get decl "name" = None
  /\ py_get decl "parameters" = None
  /\ exists fn,
       py_get decl "function" = Some fn
       /\ py_get fn "name" = Some (PStr (tool_name tool))
       /\ py_get fn "parameters" = Some (tool_inputSchema tool).

(** A lower-case ASCII letter's capital. *)
Definition capital (c : ascii) : ascii := ascii_of_nat (nat_of_ascii c - 32).

(** [s] spells the lower-case word [word], each letter in either case. *)
Fixpoint spells (word s : string) : bool :=
  match word, s with
  | EmptyString, EmptyString => true
  | String w word', String c s' =>
      (Ascii.eqb c w || Ascii.eqb c (capital w)) && spells word' s'
  | _, _ => false
  end.

(** ** A scripted environment

    The tool list is fixed, the tool server answers by a function, and
    the completion endpoint plays back a list of prepared answers. *)

Module Scripted.

(** [json.loads] on the payloads the examples send: the three JSON
    texts below decode as they do in Python; the other payload in use,
    the bare word oops, is no JSON text and is refused with the message
    Python gives for it. *)
Definition decode (text : string) : exn + pyval :=
  if String.eqb text "{}" then inr (PDict [])
  else if String.eqb text "5" then inr (PInt 5)
  else if String.eqb text "null" then inr PNone
  else inl (mk_exn JSONDecodeError "Expecting value: line 1 column 1 (char 0)").

(** [str] on the values the examples print; no other value is rendered
    in them. *)
Definition render (v : pyval) : string :=
  match v with
  | PNone => "None"
  | PBool true => "True"
  | PBool false => "False"
  | PInt 5 => "5"
  | PDict [] => "{}"
  | PList [] => "[]"
  | PList [PStr s] => "['" ++ s ++ "']"
  | PStr s => s
  | _ => "..."
  end.

Definition play (w : list (Outcome Response))
  : Outcome Response * list (Outcome Response) :=
  match w with
  | [] => (Raise (mk_exn RuntimeError "no answer left"), [])
  | r :: w' => (r, w')
  end.

Definition env (tools : list Tool) (tool : string -> pyval -> Outcome pyval)
  : Env :=
  mk_Env (list (Outcome Response)) unit unit
    (fun _ _ w => (Ok (tt, tt), w))
    (fun _ _ w => (Ok tt, w))
    (fun _ w => (Ok tt, w))
    (fun _ w => (Ok tools, w))
    (fun _ name args w => (tool name args, w))
    (fun _ _ w => play w)
    decode render
    (fun w => (Ok tt, w))
    (fun _ => mk_exn EOFError "EOF when reading a line").

(** A connected client with the answers still to come and the log so
    far. *)
Definition state (tools : list Tool) (tool : string -> pyval -> Outcome pyval)
  (answers : list (Outcome Response)) (evs : list Event)
  : State (env tools tool) :=
  mk_State (E := env tools tool) answers
    (mk_MCPClient (E := env tools tool) (Some tt) (Some tt) (Some tt)) evs.

Definition connected (tools : list Tool) (tool : string -> pyval -> Outcome pyval)
  (answers : list (Outcome Response)) : State (env tools tool) :=
  state tools tool answers [].

(** A client that has not connected yet. *)
Definition fresh (tools : list Tool) (tool : string -> pyval -> Outcome pyval)
  (answers : list (Outcome Response)) : State (env tools tool) :=
  init (E := env tools tool) answers.

Definition echo_tool : Tool :=
  mk_Tool "echo" (Some "Echo the input") (PDict []).

(** A tool server that answers every call with the same text. *)
Definition pong (name : string) (args : pyval) : Outcome pyval :=
  Ok (PDict [("content", PStr "pong")]).

Definition plain (text : option string) : Choice :=
  mk_Choice (mk_ChatMessage "assistant" None (Has text)).

Definition asks (calls : list (string * string)) : Choice :=
  mk_Choice (mk_ChatMessage "assistant"
    (Some (map (fun c => mk_ToolCall "call" (mk_FunctionCall (fst c) (snd c))) calls))
    (Has None)).

Definition says (c : Choice) : Outcome Response := Ok (mk_Response [c]).

(** An endpoint failure. *)
Definition overloaded : exn := mk_exn RuntimeError "rate limit exceeded".

(** A tool server that knows only "echo" and refuses any other name. *)
Definition only_echo (name : string) (args : pyval) : Outcome pyval :=
  if String.eqb name "echo" then Ok (PDict [("content", PStr "pong")])
  else Raise (mk_exn RuntimeError ("Unknown tool: " ++ name)).

End Scripted.

(** ** More ways to read a run *)

(** The requests a query may send. *)
Definition query_event (ev : Event) : bool :=
  match ev with
  | EvListTools | EvCallTool _ _ | EvComplete _ _ => true
  | _ => false
  end.

(** The requests of a tool round: a tool call, or a completion request
    that carries no tool declarations. *)
Definition round_event (ev : Event) : bool :=
  match ev with
  | EvCallTool _ _ | EvComplete _ None => true
  | _ => false
  end.

(** Everything but the three steps that set a connection up. *)
Definition loop_event (ev : Event) : bool :=
  match ev with
  | EvSpawn _ _ | EvOpenSession | EvInitialize => false
  | _ => true
  end.

(** A computation leaves the client object alone and appends to the log
    only events of the allowed kind. *)
Definition emits {E A} (allowed : Event -> bool) (m : M E A) : Prop :=
  forall st o st',
    m st = (o, st') ->
    self st' = self st
    /\ exists d, log st' = log st ++ d /\ forallb allowed d = true.

(** The transcripts of the completion requests, in order. *)
Fixpoint transcripts (evs : list Event) : list (list Message) :=
  match evs with
  | [] => []
  | EvComplete ms _ :: rest => ms :: transcripts rest
  | _ :: rest => transcripts rest
  end.

(** Each transcript extends the one before it. *)
Fixpoint chain (prev : list Message) (ts : list (list Message)) : Prop :=
  match ts with
  | [] => True
  | t :: rest => (exists more, t = prev ++ more) /\ chain t rest
  end.

(** The two roles [process_query] ever writes into a transcript. *)
Definition chat_role (m : Message) : bool :=
  String.eqb (msg_role m) "user" || String.eqb (msg_role m) "assistant".

(** The entries that are not [None], said without the comprehension. *)
Definition present (entries : list (option string)) : list string :=
  flat_map (fun entry => match entry with Some text => [text] | None => [] end)
           entries.

(** What a follow-up response is read for: the content of the message of
    its first choice, when there is one and it has that attribute. *)
Definition first_text (response : Response) : option (option string) :=
  match choices response with
  | [] => None
  | c :: _ =>
      match cm_content (ch_message c) with
      | Has text => Some text
      | Missing => None
      end
  end.

(** The tool calls of one message, gone through without an exception.
    Each round starts from the locals [l] and the collaborators' state
    [w]: the payload decodes, the tool server answers with a result that
    has a content, the transcript grows by the assistant text (if any)
    and by that content as a user message, the completion endpoint
    answers the grown transcript, and the content of the first choice of
    that answer is appended to [final_text] after the trace line.  The
    next round starts where this one ended. *)
Inductive tool_rounds (E : Env) (s : Session E) (message : ChatMessage)
  : Locals -> World E -> list ToolCall -> list Event -> Locals -> World E -> Prop :=
| tool_rounds_nil l w : tool_rounds E s message l w [] [] l w
| tool_rounds_cons l w tool_call rest args result w1 content response w2 text
                   d l' w' :
    json_loads E (fn_arguments (tc_function tool_call)) = inr args ->
    call_tool E s (fn_name (tc_function tool_call)) args w = (Ok result, w1) ->
    py_get result "content" = Some content ->
    completions_create E
      ((messages l ++ echo message) ++ [mk_Message "user" content]) None w1
    = (Ok response, w2) ->
    first_text response = Some text ->
    tool_rounds E s message
      (mk_Locals
         ((messages l ++ echo message) ++ [mk_Message "user" content])
         (tool_results l ++ [(fn_name (tc_function tool_call), result)])
         ((final_text l
             ++ [Some (trace_line (E := E) (fn_name (tc_function tool_call)) args)])
            ++ [text]))
      w2 rest d l' w' ->
    tool_rounds E s message l w (tool_call :: rest)
      (EvCallTool (fn_name (tc_function tool_call)) args
         :: EvComplete
              ((messages l ++ echo message) ++ [mk_Message "user" content])
              None
         :: d)
      l' w'.

(** The one pass over the choices of the first response, gone through
    without an exception: an assistant message with tool calls has its
    rounds, a plain assistant message adds its content to [final_text],
    any other choice changes nothing. *)
Inductive single_pass (E : Env) (s : Session E)
  : Locals -> World E -> list Choice -> list Event -> Locals -> World E -> Prop :=
| single_pass_nil l w : single_pass E s l w [] [] l w
| single_pass_calls l w choice rest d1 l1 w1 d2 l2 w2 :
    is_assistant (ch_message choice) = true ->
    requested_calls (ch_message choice) <> [] ->
    tool_rounds E s (ch_message choice) l w
      (requested_calls (ch_message choice)) d1 l1 w1 ->
    single_pass E s l1 w1 rest d2 l2 w2 ->
    single_pass E s l w (choice :: rest) (d1 ++ d2) l2 w2
| single_pass_plain l w choice rest d l2 w2 :
    is_assistant (ch_message choice) = true ->
    requested_calls (ch_message choice) = [] ->
    has_content (ch_message choice) = true ->
    single_pass E s
      (mk_Locals (messages l) (tool_results l)
         (final_text l ++ [content_of (ch_message choice)]))
      w rest d l2 w2 ->
    single_pass E s l w (choice :: rest) d l2 w2
| single_pass_other l w choice rest d l2 w2 :
    is_assistant (ch_message choice)
    && (nonempty (requested_calls (ch_message choice))
        || has_content (ch_message choice)) = false ->
    single_pass E s l w rest d l2 w2 ->
    single_pass E s l w (choice :: rest) d l2 w2.

(** Trimming, said on its own: a string of whitespace only, and a
    string that neither starts nor ends with whitespace. *)
Fixpoint all_space (s : string) : bool :=
  match s with
  | EmptyString => true
  | String c r => isspace c && all_space r
  end.

Definition starts_clean (s : string) : bool :=
  match s with
  | EmptyString => true
  | String c _ => negb (isspace c)
  end.

Fixpoint ends_clean (s : string) : bool :=
  match s with
  | EmptyString => true
  | String c EmptyString => negb (isspace c)
  | String _ r => ends_clean r
  end.

(** The names under which a list of tool calls asks for tools. *)
Definition names_of (calls : list ToolCall) : list string :=
  map (fun tc => fn_name (tc_function tc)) calls.

Definition succeeded {A} (o : Outcome A) : bool :=
  match o with Ok _ => true | Raise _ => false end.


(** A line that ends the interactive loop. *)
Definition is_quit (line : string) : bool := spells "quit" (strip line).

(** ** [MCPClient.cleanup] and [main] *)

(** [await self.exit_stack.aclose()]: the exit stack holds the contexts
    that [connect_to_server] entered, the ones behind the client's
    transport and session fields; what closing them does is the
    collaborators' business, given here as [aclose] on the client object
    and the collaborators' state. *)
Definition cleanup {E : Env}
  (aclose : MCPClient E -> World E -> Outcome unit * World E) : M E unit :=
  fun st =>
    let (r, w) := aclose (self st) (world st) in
    (r, mk_State w (self st) (log st)).

(** [try: body  finally: final] *)
Definition try_finally {E A} (body : M E A) (final : M E unit) : M E A :=
  fun st =>
    let (r, st1) := body st in
    match final st1 with
    | (Ok _, st2) => (r, st2)
    | (Raise e, st2) => (Raise e, st2)
    end.

Definition usage : string := "Usage: python client.py <path_to_server_script>".

(** [client = MCPClient()]: the fields are set and the completion client
    is built from the process environment, which may raise; no client
    object exists then. *)
Definition new_client {E : Env} : M E unit :=
  fun st =>
    match AzureOpenAI E (world st) with
    | (Ok _, w) => (Ok tt, mk_State w (mk_MCPClient None None None) (log st))
    | (Raise e, w) => (Raise e, mk_State w (self st) (log st))
    end.

(** [main], run as a script with [sys.argv = argv] and the lines that
    [input] returns; [sys.exit(1)] raises [SystemExit]. *)
Definition main {E : Env}
  (aclose : MCPClient E -> World E -> Outcome unit * World E)
  (argv : list string) (lines : list string) : M E unit :=
  if (List.length argv <? 2)%nat
  then print usage ;; raise SystemExit "1"
  else
    new_client ;;
    try_finally
      (connect_to_server (nth 1 argv "") ;; chat_loop lines)
      (cleanup aclose).

(** Closing that always succeeds and leaves the prepared answers alone. *)
Definition quiet_close (tools : list Tool) (tool : string -> pyval -> Outcome pyval)
  (c : MCPClient (Scripted.env tools tool))
  (w : World (Scripted.env tools tool))
  : Outcome unit * World (Scripted.env tools tool) :=
  (Ok tt, w).

(** Collaborators whose session refuses the handshake. *)
Definition no_handshake : Env :=
  mk_Env unit unit unit
    (fun _ _ w => (Ok (tt, tt), w))
    (fun _ _ w => (Ok tt, w))
    (fun _ w => (Raise (mk_exn RuntimeError "handshake failed"), w))
    (fun _ w => (Ok [], w))
    (fun _ _ _ w => (Ok PNone, w))
    (fun _ _ w => (Ok (mk_Response []), w))
    Scripted.decode Scripted.render
    (fun w => (Ok tt, w))
    (fun _ => mk_exn EOFError "EOF when reading a line").

(** Collaborators whose process environment holds no credentials: the
    completion client cannot be built. *)
Definition no_credentials : Env :=
  mk_Env unit unit unit
    (fun _ _ w => (Ok (tt, tt), w))
    (fun _ _ w => (Ok tt, w))
    (fun _ w => (Ok tt, w))
    (fun _ w => (Ok [], w))
    (fun _ _ _ w => (Ok PNone, w))
    (fun _ _ w => (Ok (mk_Response []), w))
    Scripted.decode Scripted.render
    (fun w => (Raise (mk_exn RuntimeError "Missing credentials"), w))
    (fun _ => mk_exn EOFError "EOF when reading a line").

(** Closing that always succeeds, for any collaborators. *)
Definition close_quietly {E : Env} (c : MCPClient E) (w : World E)
  : Outcome unit * World E :=
  (Ok tt, w).

(** A tool server whose result has no "content" key. *)
Definition bare_result (name : string) (args : pyval) : Outcome pyval :=
  Ok (PDict [("isError", PBool false)]).

(** ** Text lemmas *)

Lemma lower_char_spells (w c : ascii) :
  In w ["q"; "u"; "i"; "t"]%char ->
  Ascii.eqb (lower_char c) w = (Ascii.eqb c w || Ascii.eqb c (capital w)).
Proof.
  intros Hw.
  destruct c as [[] [] [] [] [] [] [] []];
    simpl in Hw;
    destruct Hw as [<- | [<- | [<- | [<- | []]]]]; reflexivity.
Qed.

Lemma lower_quit (s : string) :
  String.eqb (lower s) "quit" = spells "quit" s.
Proof.
  destruct s as [| c1 [| c2 [| c3 [| c4 [| c5 s]]]]];
    cbn [lower String.eqb spells];
    rewrite <- ?lower_char_spells by (simpl; auto);
    repeat match goal with
           | |- context [Ascii.eqb (lower_char ?c) ?w] =>
               destruct (Ascii.eqb (lower_char c) w)
           end;
    reflexivity.
Qed.

(** ** Stepping through the monad *)

Section Run.

Context {E : Env}.

Lemma bind_Ok {A B} (m : M E A) (k : A -> M E B) st b st' :
  bind m k st = (Ok b, st') ->
  exists a st1, m st = (Ok a, st1) /\ k a st1 = (Ok b, st').
Proof.
  unfold bind. destruct (m st) as [[a | e] st1]; intros H.
  - eauto.
  - discriminate.
Qed.

Lemma bind_step {A B} (m : M E A) (k : A -> M E B) st a st1 :
  m st = (Ok a, st1) -> bind m k st = k a st1.
Proof. unfold bind. intros ->. reflexivity. Qed.

Lemma bind_Raise {A B} (m : M E A) (k : A -> M E B) st e st1 :
  m st = (Raise e, st1) -> bind m k st = (Raise e, st1).
Proof. unfold bind. intros ->. reflexivity. Qed.

Lemma request_Ok {A} ev (f : World E -> Outcome A * World E) st a st1 :
  request ev f st = (Ok a, st1) ->
  exists w, f (world st) = (Ok a, w)
            /\ st1 = mk_State w (self st) (log st ++ [ev]).
Proof.
  unfold request. destruct (f (world st)) as [r w] eqn:Hf.
  intros H. inversion H; subst. eauto.
Qed.

Lemma request_step {A} ev (f : World E -> Outcome A * World E) st r w :
  f (world st) = (r, w) ->
  request ev f st = (r, mk_State w (self st) (log st ++ [ev])).
Proof. unfold request. intros ->. reflexivity. Qed.

Lemma the_session_Ok method st s st1 :
  the_session (E := E) method st = (Ok s, st1) ->
  session (self st) = Some s /\ st1 = st.
Proof.
  unfold the_session, bind, get_self, ret, raise.
  destruct (session (self st)); intros H; inversion H; auto.
Qed.

Lemma the_session_step method st s :
  session (self st) = Some s -> the_session (E := E) method st = (Ok s, st).
Proof.
  unfold the_session, bind, get_self, ret. intros ->. reflexivity.
Qed.

Lemma loads_Ok text st v st1 :
  loads (E := E) text st = (Ok v, st1) ->
  json_loads E text = inr v /\ st1 = st.
Proof.
  unfold loads, ret, raise.
  destruct (json_loads E text); intros H; inversion H; auto.
Qed.

Lemma loads_step text st v :
  json_loads E text = inr v -> loads (E := E) text st = (Ok v, st).
Proof. unfold loads, ret. intros ->. reflexivity. Qed.

Lemma loads_fails text st e :
  json_loads E text = inl e ->
  loads (E := E) text st = (Raise e, st).
Proof. unfold loads. intros ->. reflexivity. Qed.

Lemma subscript_content_pure result st o st1 :
  subscript_content (E := E) result st = (o, st1) -> st1 = st.
Proof.
  unfold subscript_content, ret, raise.
  destruct result as [| | | | | |items]; try (intros H; inversion H; reflexivity).
  destruct (dict_get items "content"); intros H; inversion H; reflexivity.
Qed.

Lemma first_content_pure response st o st1 :
  first_content (E := E) response st = (o, st1) -> st1 = st.
Proof.
  unfold first_content, ret, raise.
  destruct (choices response) as [| c ?]; [intros H; inversion H; reflexivity |].
  destruct (cm_content (ch_message c)); intros H; inversion H; reflexivity.
Qed.

Lemma for_each_app {A S} (body : S -> A -> M E S) xs ys s st :
  for_each body (xs ++ ys) s st
  = bind (for_each body xs s) (for_each body ys) st.
Proof.
  revert s st. induction xs as [| x xs IH]; intros s st; simpl.
  - reflexivity.
  - unfold bind at 1 2 3.
    destruct (body s x st) as [[a | e] st1]; [| reflexivity].
    rewrite IH. reflexivity.
Qed.

(** *** One tool call *)

Lemma echo_assistant message :
  Forall (fun m => msg_role m = "assistant") (echo message).
Proof.
  unfold echo. destruct (truthy_content message); repeat constructor.
Qed.

Lemma dispatch_Ok message l tool_call (st : State E) l' st' :
  dispatch message l tool_call st = (Ok l', st') ->
  exists args content text,
    json_loads E (fn_arguments (tc_function tool_call)) = inr args
    /\ messages l' = messages l ++ echo message ++ [mk_Message "user" content]
    /\ final_text l'
       = final_text l
           ++ [Some (trace_line (E := E) (fn_name (tc_function tool_call)) args);
               text]
    /\ self st' = self st
    /\ log st'
       = log st ++ [EvCallTool (fn_name (tc_function tool_call)) args;
                    EvComplete (messages l') None].
Proof.
  unfold dispatch. intros H.
  apply bind_Ok in H as (args & st1 & Hargs & H).
  apply loads_Ok in Hargs as [Hargs ->].
  apply bind_Ok in H as (s & st1 & Hs & H).
  apply the_session_Ok in Hs as [Hs ->].
  apply bind_Ok in H as (result & st1 & Hcall & H).
  apply request_Ok in Hcall as (w1 & Hcall & ->).
  apply bind_Ok in H as (content & st1 & Hcontent & H).
  pose proof (subscript_content_pure _ _ _ _ Hcontent) as ->.
  apply bind_Ok in H as (response & st1 & Hcreate & H).
  apply request_Ok in Hcreate as (w2 & Hcreate & ->).
  apply bind_Ok in H as (text & st1 & Htext & H).
  pose proof (first_content_pure _ _ _ _ Htext) as ->.
  unfold ret in H. inversion H; subst; clear H. simpl.
  exists args, content, text.
  rewrite <- !app_assoc. simpl. auto.
Qed.

(** An undecodable payload stops the call before anything is sent. *)
Lemma dispatch_undecodable message l tool_call (st : State E) e :
  json_loads E (fn_arguments (tc_function tool_call)) = inl e ->
  dispatch message l tool_call st = (Raise e, st).
Proof.
  intros H. unfold dispatch.
  apply bind_Raise. apply loads_fails. exact H.
Qed.

(** *** The two loops *)

Lemma rounds_app ms1 xs d1 ms2 ys d2 ms3 :
  rounds E ms1 xs d1 ms2 -> rounds E ms2 ys d2 ms3 ->
  rounds E ms1 (xs ++ ys) (d1 ++ d2) ms3.
Proof.
  induction 1 as [| ms tc rest args said content evs ms' Hargs Hsaid _ IH];
    intros Hys; simpl.
  - exact Hys.
  - econstructor; eauto.
Qed.

Lemma dispatch_all_Ok message calls :
  forall l (st : State E) l' st',
    for_each (dispatch message) calls l st = (Ok l', st') ->
    exists d,
      log st' = log st ++ d
      /\ rounds E (messages l) calls d (messages l')
      /\ self st' = self st.
Proof.
  induction calls as [| tc calls IH]; intros l st l' st' H; simpl in H.
  - unfold ret in H. inversion H; subst.
    exists []. rewrite app_nil_r. repeat split. constructor.
  - apply bind_Ok in H as (l1 & st1 & Hone & Hrest).
    apply dispatch_Ok in Hone
      as (args & content & text & Hargs & Hms & _ & Hself & Hlog).
    apply IH in Hrest as (d & Hlog' & Hrounds & Hself').
    exists (EvCallTool (fn_name (tc_function tc)) args
              :: EvComplete (messages l1) None :: d).
    rewrite Hlog', Hlog, <- app_assoc. simpl.
    repeat split; [| congruence].
    rewrite Hms in *.
    econstructor; eauto using echo_assistant.
Qed.

Lemma inspect_Ok l choice (st : State E) l' st' :
  inspect l choice st = (Ok l', st') ->
  exists d,
    log st' = log st ++ d
    /\ rounds E (messages l) (calls_of choice) d (messages l')
    /\ self st' = self st.
Proof.
  unfold inspect, calls_of. intros H.
  destruct (is_assistant (ch_message choice)); cbn [andb] in H.
  - destruct (requested_calls (ch_message choice)) as [| tc calls] eqn:Hcalls;
      cbn [nonempty] in H.
    + exists []. rewrite app_nil_r.
      destruct (has_content (ch_message choice));
        unfold ret in H; inversion H; subst; simpl; repeat split; constructor.
    + apply dispatch_all_Ok in H. exact H.
  - unfold ret in H. inversion H; subst.
    exists []. rewrite app_nil_r. repeat split. constructor.
Qed.

Lemma inspect_all_Ok chs :
  forall l (st : State E) l' st',
    for_each inspect chs l st = (Ok l', st') ->
    exists d,
      log st' = log st ++ d
      /\ rounds E (messages l) (flat_map calls_of chs) d (messages l')
      /\ self st' = self st.
Proof.
  induction chs as [| ch chs IH]; intros l st l' st' H; simpl in H.
  - unfold ret in H. inversion H; subst.
    exists []. rewrite app_nil_r. repeat split. constructor.
  - apply bind_Ok in H as (l1 & st1 & Hone & Hrest).
    apply inspect_Ok in Hone as (d1 & Hlog1 & Hr1 & Hself1).
    apply IH in Hrest as (d2 & Hlog2 & Hr2 & Hself2).
    exists (d1 ++ d2). simpl.
    rewrite Hlog2, Hlog1, <- app_assoc.
    repeat split; [| congruence].
    eapply rounds_app; eauto.
Qed.

(** *** A whole query *)

Lemma process_query_Ok query (st : State E) answer st' :
  process_query query st = (Ok answer, st') ->
  exists s tools w1 response w2 l,
    session (self st) = Some s
    /\ list_tools E s (world st) = (Ok tools, w1)
    /\ completions_create E (first_transcript query)
         (Some (available_tools tools)) w1 = (Ok response, w2)
    /\ for_each inspect (choices response)
         (mk_Locals (first_transcript query) [] [])
         (mk_State w2 (self st)
            (log st ++ [EvListTools;
                        EvComplete (first_transcript query)
                          (Some (available_tools tools))]))
       = (Ok l, st')
    /\ answer = join nl (not_None (final_text l)).
Proof.
  unfold process_query. intros H.
  apply bind_Ok in H as (s & st1 & Hs & H).
  apply the_session_Ok in Hs as [Hs ->].
  apply bind_Ok in H as (tools & st1 & Htools & H).
  apply request_Ok in Htools as (w1 & Htools & ->).
  apply bind_Ok in H as (response & st1 & Hcreate & H).
  apply request_Ok in Hcreate as (w2 & Hcreate & ->).
  apply bind_Ok in H as (l & st1 & Hloop & H).
  unfold ret in H. inversion H; subst; clear H.
  simpl in *. rewrite <- app_assoc in Hloop. simpl in Hloop.
  exists s, tools, w1, response, w2, l. auto.
Qed.

Lemma process_query_step query (st : State E) s tools w1 response w2 :
  session (self st) = Some s ->
  list_tools E s (world st) = (Ok tools, w1) ->
  completions_create E (first_transcript query)
    (Some (available_tools tools)) w1 = (Ok response, w2) ->
  process_query query st
  = bind (for_each inspect (choices response)
            (mk_Locals (first_transcript query) [] []))
         (fun l => ret (join nl (not_None (final_text l))))
         (mk_State w2 (self st)
            (log st ++ [EvListTools;
                        EvComplete (first_transcript query)
                          (Some (available_tools tools))])).
Proof.
  intros Hs Htools Hcreate. unfold process_query.
  rewrite (bind_step _ _ _ _ _ (the_session_step _ _ _ Hs)).
  rewrite (bind_step _ _ _ _ _ (request_step _ _ _ _ _ Htools)).
  erewrite bind_step; cycle 1.
  { apply request_step. simpl. exact Hcreate. }
  simpl. rewrite <- app_assoc. reflexivity.
Qed.

End Run.

(** ** The log only grows *)

Section Grows.

Context {E : Env}.

Lemma grows_ret {A} (a : A) : grows (E := E) (ret a).
Proof.
  intros st o st' H. inversion H; subst. exists []. now rewrite app_nil_r.
Qed.

Lemma grows_raise {A} c text : grows (@raise E A c text).
Proof.
  intros st o st' H. inversion H; subst. exists []. now rewrite app_nil_r.
Qed.

Lemma grows_bind {A B} (m : M E A) (k : A -> M E B) :
  grows m -> (forall a, grows (k a)) -> grows (bind m k).
Proof.
  intros Hm Hk st o st' H. unfold bind in H.
  destruct (m st) as [[a | e] st1] eqn:Hrun.
  - apply Hm in Hrun as [d1 H1]. apply Hk in H as [d2 H2].
    exists (d1 ++ d2). rewrite H2, H1. now rewrite app_assoc.
  - inversion H; subst. eapply Hm; eauto.
Qed.

Lemma grows_request {A} ev (f : World E -> Outcome A * World E) :
  grows (request ev f).
Proof.
  intros st o st' H. unfold request in H.
  destruct (f (world st)) as [r w]. inversion H; subst. simpl. eauto.
Qed.

Lemma grows_for_each {A S} (body : S -> A -> M E S) xs :
  (forall s x, grows (body s x)) -> forall s, grows (for_each body xs s).
Proof.
  intros Hbody. induction xs as [| x xs IH]; intros s; simpl.
  - apply grows_ret.
  - apply grows_bind; auto.
Qed.

Lemma grows_pure {A} (m : M E A) :
  (forall st o st', m st = (o, st') -> st' = st) -> grows m.
Proof.
  intros Hm st o st' H. apply Hm in H as ->.
  exists []. now rewrite app_nil_r.
Qed.

Lemma loads_pure text (st : State E) o st' :
  loads text st = (o, st') -> st' = st.
Proof.
  unfold loads, ret, raise.
  destruct (json_loads E text); intros H; inversion H; reflexivity.
Qed.

Lemma the_session_pure method (st : State E) o st' :
  the_session method st = (o, st') -> st' = st.
Proof.
  unfold the_session, bind, get_self, ret, raise.
  destruct (session (self st)); intros H; inversion H; reflexivity.
Qed.

Lemma grows_dispatch message l tool_call :
  grows (dispatch (E := E) message l tool_call).
Proof.
  unfold dispatch.
  apply grows_bind; [apply grows_pure, loads_pure | intros args].
  apply grows_bind; [apply grows_pure, the_session_pure | intros s].
  apply grows_bind; [apply grows_request | intros result].
  apply grows_bind; [apply grows_pure, subscript_content_pure | intros content].
  apply grows_bind; [apply grows_request | intros response].
  apply grows_bind; [apply grows_pure, first_content_pure | intros text].
  apply grows_ret.
Qed.

Lemma grows_inspect l choice : grows (inspect (E := E) l choice).
Proof.
  unfold inspect.
  destruct (_ && _).
  - apply grows_for_each. intros. apply grows_dispatch.
  - destruct (_ && _); apply grows_ret.
Qed.

End Grows.

Section Reach.

Context {E : Env}.

Lemma reaches_self query (st : State E) tools message l tool_call st' :
  reaches query st tools message l tool_call st' -> self st' = self st.
Proof.
  intros (s & w1 & response & w2 & before & after & done & todo
          & l1 & st1 & _ & _ & _ & _ & _ & _ & Hbefore & Hdone).
  apply inspect_all_Ok in Hbefore as (_ & _ & _ & Hself1).
  apply dispatch_all_Ok in Hdone as (_ & _ & _ & Hself2).
  rewrite Hself2, Hself1. reflexivity.
Qed.

(** From there on, [process_query] is the call itself followed by the
    rest of the two loops and the final join. *)
Lemma reaches_continue query (st : State E) tools message l tool_call st' :
  reaches query st tools message l tool_call st' ->
  exists todo after,
    process_query query st
    = bind (dispatch message l tool_call)
        (fun l2 =>
           bind (for_each (dispatch message) todo l2)
             (fun l3 =>
                bind (for_each inspect after l3)
                  (fun l4 => ret (join nl (not_None (final_text l4))))))
        st'.
Proof.
  intros (s & w1 & response & w2 & before & after & done & todo
          & l1 & st1 & Hs & Htools & Hcreate & Hchoices & Hrole & Hcalls
          & Hbefore & Hdone).
  exists todo, after.
  rewrite (process_query_step _ _ _ _ _ _ _ Hs Htools Hcreate).
  rewrite Hchoices.
  unfold bind at 1. rewrite for_each_app.
  rewrite (bind_step _ _ _ _ _ Hbefore).
  cbn [for_each]. unfold bind at 1 2.
  unfold inspect at 1. cbn [ch_message].
  rewrite Hrole, Hcalls.
  replace (nonempty (done ++ tool_call :: todo)) with true
    by (destruct done; reflexivity).
  cbn [andb]. rewrite for_each_app.
  rewrite (bind_step _ _ _ _ _ Hdone).
  cbn [for_each]. unfold bind.
  destruct (dispatch message l tool_call st') as [[l2 | e] st2];
    [| reflexivity].
  destruct (for_each (dispatch message) todo l2 st2) as [[l3 | e] st3];
    [| reflexivity].
  reflexivity.
Qed.

(** The first tool call of the first choice is reached as soon as the
    first response is in. *)
Lemma reaches_first query (st : State E) s tools w1 message after w2
      tool_call todo :
  session (self st) = Some s ->
  list_tools E s (world st) = (Ok tools, w1) ->
  completions_create E (first_transcript query)
    (Some (available_tools tools)) w1
  = (Ok (mk_Response (mk_Choice message :: after)), w2) ->
  is_assistant message = true ->
  requested_calls message = tool_call :: todo ->
  reaches query st tools message
    (mk_Locals (first_transcript query) [] []) tool_call
    (mk_State w2 (self st)
       (log st ++ [EvListTools;
                   EvComplete (first_transcript query)
                     (Some (available_tools tools))])).
Proof.
  intros Hs Htools Hcreate Hrole Hcalls.
  exists s, w1, (mk_Response (mk_Choice message :: after)), w2,
    [], after, [], todo.
  do 2 eexists. repeat split; eauto.
Qed.

Lemma rounds_split xs :
  forall ms ys d ms',
    rounds E ms (xs ++ ys) d ms' ->
    exists d1 d2 mid,
      d = d1 ++ d2 /\ rounds E ms xs d1 mid /\ rounds E mid ys d2 ms'.
Proof.
  induction xs as [| x xs IH]; intros ms ys d ms' H; simpl in H.
  - exists [], d, ms. repeat split; [constructor | exact H].
  - inversion H as [| ? ? ? args said content evs ? Hargs Hsaid Hrest];
      subst.
    apply IH in Hrest as (d1 & d2 & mid & -> & H1 & H2).
    eexists (_ :: _ :: d1), d2, mid.
    repeat split; [| exact H2].
    econstructor; eauto.
Qed.

Lemma rounds_called_tools ms calls d ms' :
  rounds E ms calls d ms' ->
  called_tools d = map (fun tc => fn_name (tc_function tc)) calls
  /\ completions d = List.length calls.
Proof.
  induction 1 as [| ms tc rest args said content evs ms' _ _ _ [IH1 IH2]];
    simpl; [auto |].
  rewrite IH1, IH2. auto.
Qed.

Lemma rounds_decoded ms calls d ms' :
  rounds E ms calls d ms' ->
  Forall (fun tc =>
            exists args,
              json_loads E (fn_arguments (tc_function tc)) = inr args)
         calls.
Proof.
  induction 1; constructor; eauto.
Qed.

End Reach.

(** * Properties *)

(** ** Connecting *)

Example endswith_cases :
  map (fun path => (endswith path ".py", endswith path ".js"))
      ["server.py"; "server.js"; ".py"; "py"; "server.py.txt"; "server.PY"; ""]
  = [(true, false); (false, true); (true, false); (false, false);
     (false, false); (false, false); (false, false)].
Proof. reflexivity. Qed.

Example connect_python :
  log (snd (connect_to_server "tools/server.py"
              (Scripted.fresh [Scripted.echo_tool] Scripted.pong [])))
  = [EvSpawn "python" ["tools/server.py"]; EvOpenSession; EvInitialize;
     EvListTools; EvPrint (nl ++ "Connected to server with tools: ['echo']")].
Proof. reflexivity. Qed.

(** C9. A server script path that ends in neither ".py" nor ".js" makes
    [connect_to_server] raise [ValueError] at once: nothing is spawned,
    no session is opened, and the client object, the collaborators and
    the log are exactly as before. *)
Theorem connect_to_server_rejects_other_suffixes
  (E : Env) (server_script_path : string) (st : State E) :
  endswith server_script_path ".py" = false ->
  endswith server_script_path ".js" = false ->
  connect_to_server server_script_path st
  = (Raise (mk_exn ValueError "Server script must be a .py or .js file"), st).
Proof.
  intros Hpy Hjs. unfold connect_to_server.
  rewrite Hpy, Hjs. reflexivity.
Qed.

Lemma connect_to_server_rejects_other_suffixes_witness :
  endswith "server.rb" ".py" = false
  /\ endswith "server.rb" ".js" = false
  /\ connect_to_server "server.rb" (Scripted.fresh [] Scripted.pong [])
     = (Raise (mk_exn ValueError "Server script must be a .py or .js file"),
        Scripted.fresh [] Scripted.pong []).
Proof.
  split; [reflexivity |]. split; [reflexivity |].
  apply (connect_to_server_rejects_other_suffixes
           (Scripted.env [] Scripted.pong) "server.rb"
           (Scripted.fresh [] Scripted.pong []));
    reflexivity.
Defined.

(** ** Tool declarations *)

(** C3, as stated, fails: for the one-tool list [echo] the declaration
    that [process_query] builds is not the flat record
    [{type, name, description, parameters}]; it has no key "name". *)
Lemma flat_declaration_fails :
  ~ Forall2 flat_declaration
      [Scripted.echo_tool] (available_tools [Scripted.echo_tool]).
Proof.
  intros H. inversion H as [| tool decl ? ? Hdecl _]; subst.
  destruct Hdecl as (_ & Hname & _). discriminate Hname.
Qed.

(** C3, amended. For every tool list the declarations have the same
    count and order, and each one is the record
    [{type: "function", description, function: {name, parameters}}]:
    description at the top level, name and parameters under "function",
    all three equal to the tool's own. *)
Theorem available_tools_nested (tools : list Tool) :
  List.length (available_tools tools) = List.length tools
  /\ Forall2 nested_declaration tools (available_tools tools).
Proof.
  split.
  - unfold available_tools. apply length_map.
  - induction tools as [| tool tools IH]; simpl; constructor; [| exact IH].
    unfold nested_declaration. simpl.
    repeat split. eexists. simpl. repeat split.
Qed.

(** ** The interactive loop *)

Lemma lstrip_all_space (lead x : string) :
  all_space lead = true -> lstrip (lead ++ x) = lstrip x.
Proof.
  induction lead as [| c lead IH]; simpl; [reflexivity |].
  intros H. apply andb_true_iff in H as [-> H]. auto.
Qed.

Lemma rstrip_all_space (trail : string) :
  all_space trail = true -> rstrip trail = EmptyString.
Proof.
  induction trail as [| c trail IH]; simpl; [reflexivity |].
  intros H. apply andb_true_iff in H as [-> H]. rewrite IH by exact H.
  reflexivity.
Qed.

Lemma lstrip_only_space (trail : string) :
  all_space trail = true -> lstrip trail = EmptyString.
Proof.
  induction trail as [| c trail IH]; simpl; [reflexivity |].
  intros H. apply andb_true_iff in H as [-> H]. auto.
Qed.

Lemma rstrip_trim (core trail : string) :
  ends_clean core = true -> all_space trail = true ->
  rstrip (core ++ trail) = core.
Proof.
  intros Hcore Htrail.
  induction core as [| c core IH]; cbn [append].
  - apply rstrip_all_space, Htrail.
  - cbn [rstrip]. destruct core as [| c' core'].
    + cbn [append]. rewrite rstrip_all_space by exact Htrail.
      cbn [ends_clean] in Hcore. apply negb_true_iff in Hcore.
      rewrite Hcore. reflexivity.
    + rewrite IH by exact Hcore. reflexivity.
Qed.

(** Stripping a line takes its leading and trailing whitespace away and
    nothing else. *)
Lemma strip_trim (lead core trail : string) :
  all_space lead = true -> all_space trail = true ->
  starts_clean core = true -> ends_clean core = true ->
  strip (lead ++ core ++ trail) = core.
Proof.
  intros Hlead Htrail Hstart Hend. unfold strip.
  rewrite lstrip_all_space by exact Hlead.
  destruct core as [| c core].
  - cbn [append]. rewrite lstrip_only_space by exact Htrail. reflexivity.
  - cbn [starts_clean] in Hstart. apply negb_true_iff in Hstart.
    cbn [append lstrip]. rewrite Hstart.
    apply (rstrip_trim (String c core) trail Hend Htrail).
Qed.

Lemma lstrip_lead (s : string) :
  exists lead,
    s = (lead ++ lstrip s)%string
    /\ all_space lead = true /\ starts_clean (lstrip s) = true.
Proof.
  induction s as [| c s (lead & Heq & Hlead & Hclean)]; simpl.
  - exists EmptyString. auto.
  - destruct (isspace c) eqn:Hc.
    + exists (String c lead). simpl. rewrite Hc, Hlead, <- Heq. auto.
    + exists EmptyString. simpl. rewrite Hc. auto.
Qed.

Lemma rstrip_trail (s : string) :
  exists trail,
    s = (rstrip s ++ trail)%string
    /\ all_space trail = true /\ ends_clean (rstrip s) = true
    /\ (starts_clean s = true -> starts_clean (rstrip s) = true).
Proof.
  induction s as [| c s (trail & Heq & Htrail & Hclean & _)].
  - exists EmptyString. simpl. auto.
  - cbn [rstrip]. destruct (rstrip s) as [| c' r] eqn:Hr.
    + destruct (isspace c) eqn:Hc.
      * exists (String c s). cbn [append] in Heq. subst trail.
        simpl. rewrite Hc, Htrail. repeat split; auto.
      * exists s. cbn [append] in Heq. subst trail.
        simpl. rewrite Hc, Htrail. auto.
    + exists trail. cbn [append] in *.
      split; [f_equal; exact Heq |].
      split; [exact Htrail |].
      split; [exact Hclean | intros H; exact H].
Qed.

(** Every line is whitespace, a core that neither starts nor ends with
    whitespace, and whitespace again. *)
Lemma line_trims (line : string) :
  exists lead core trail,
    line = (lead ++ core ++ trail)%string
    /\ all_space lead = true /\ all_space trail = true
    /\ starts_clean core = true /\ ends_clean core = true.
Proof.
  destruct (lstrip_lead line) as (lead & Heq & Hlead & Hstart).
  destruct (rstrip_trail (lstrip line)) as (trail & Heq' & Htrail & Hend & Hkeep).
  exists lead, (rstrip (lstrip line)), trail.
  rewrite <- Heq', <- Heq. repeat split; auto.
Qed.

(** C8. Every input line is some whitespace, a core that neither starts
    nor ends with whitespace, and some whitespace again; and for every
    such reading of the line: when the core spells "quit" in any mix of
    cases the loop ends right after the prompt, with nothing else done
    and [process_query] not called; otherwise [process_query] is called
    on the core, its answer is printed or its exception reported, and the
    loop goes on with the next line. *)
Theorem quit_ends_the_loop
  (E : Env) (line : string) (rest : list string) (st : State E) :
  (exists lead core trail,
     line = (lead ++ core ++ trail)%string
     /\ all_space lead = true /\ all_space trail = true
     /\ starts_clean core = true /\ ends_clean core = true)
  /\ forall lead core trail,
       line = (lead ++ core ++ trail)%string ->
       all_space lead = true -> all_space trail = true ->
       starts_clean core = true -> ends_clean core = true ->
       read_loop (line :: rest) st
       = if spells "quit" core
         then (Ok tt, prompted st)
         else bind
                (try_except
                   (bind (process_query core)
                         (fun response => print (nl ++ response)))
                   report)
                (fun _ => read_loop rest) (prompted st).
Proof.
  split; [apply line_trims |].
  intros lead core trail -> Hlead Htrail Hstart Hend.
  cbn [read_loop]. unfold bind at 1. unfold emit. cbn [fst snd].
  rewrite lower_quit, (strip_trim _ _ _ Hlead Htrail Hstart Hend).
  destruct (spells "quit" core); reflexivity.
Qed.

Lemma quit_ends_the_loop_witness :
  let st := Scripted.connected [Scripted.echo_tool] Scripted.pong
              [Scripted.says (Scripted.plain (Some "hi"))] in
  read_loop ("  QuIt  " :: ["never read"]) st = (Ok tt, prompted st)
  /\ read_loop (" hello " :: ["quit"]) st
     = bind
         (try_except
            (bind (process_query "hello")
                  (fun response => print (nl ++ response)))
            report)
         (fun _ => read_loop ["quit"]) (prompted st).
Proof.
  split.
  - apply (proj2 (quit_ends_the_loop
                    (Scripted.env [Scripted.echo_tool] Scripted.pong)
                    "  QuIt  " ["never read"]
                    (Scripted.connected [Scripted.echo_tool] Scripted.pong
                       [Scripted.says (Scripted.plain (Some "hi"))]))
                 "  " "QuIt" "  ");
      reflexivity.
  - apply (proj2 (quit_ends_the_loop
                    (Scripted.env [Scripted.echo_tool] Scripted.pong)
                    " hello " ["quit"]
                    (Scripted.connected [Scripted.echo_tool] Scripted.pong
                       [Scripted.says (Scripted.plain (Some "hi"))]))
                 " " "hello" " ");
      reflexivity.
Defined.

Example quit_any_case :
  map (fun line => spells "quit" (strip line))
      ["quit"; "  QUIT "; "Quit"; " qUiT"; "quit now"; "q"; ""; "exit"]
  = [true; true; true; true; false; false; false; false].
Proof. reflexivity. Qed.



Example session_survives_a_failed_query :
  let st := Scripted.connected [Scripted.echo_tool] Scripted.pong
              [Raise Scripted.overloaded; Scripted.says (Scripted.plain (Some "hi"))] in
  let run := chat_loop [" hello "; "again"; " Quit "; "never read"] st in
  fst run = Ok tt
  /\ map (fun ev => match ev with EvPrint text => text | _ => "-" end)
         (log (snd run))
     = [(nl ++ "MCP Client Started!")%string;
        "Type your queries or 'quit' to exit.";
        "-"; "-"; "-"; "Error: rate limit exceeded";
        "-"; "-"; "-"; (nl ++ "hi")%string;
        "-"].
Proof. split; reflexivity. Qed.


(** ** Queries that go through, step by step *)

Section Exact.

Context {E : Env}.

Lemma not_None_present (entries : list (option string)) :
  not_None entries = present entries.
Proof.
  induction entries as [| [text |] entries IH]; simpl; congruence.
Qed.

Lemma subscript_content_Ok (result : pyval) (st : State E) content st1 :
  subscript_content result st = (Ok content, st1) ->
  py_get result "content" = Some content.
Proof.
  unfold subscript_content, py_get, ret, raise.
  destruct result as [| | | | | | items]; try discriminate.
  destruct (dict_get items "content"); intros H; inversion H; reflexivity.
Qed.

Lemma first_content_Ok (response : Response) (st : State E) text st1 :
  first_content response st = (Ok text, st1) ->
  first_text response = Some text.
Proof.
  unfold first_content, first_text, ret, raise.
  destruct (choices response) as [| c ?]; [discriminate |].
  destruct (cm_content (ch_message c)); intros H; inversion H; reflexivity.
Qed.

Lemma first_content_step (response : Response) (st : State E) text :
  first_text response = Some text ->
  first_content response st = (Ok text, st).
Proof.
  unfold first_content, first_text, ret.
  destruct (choices response) as [| c ?]; [discriminate |].
  destruct (cm_content (ch_message c)); intros H; inversion H; reflexivity.
Qed.

(** One tool call that goes through, with everything it used. *)
Lemma dispatch_exact message l tool_call (st : State E) s l' st' :
  session (self st) = Some s ->
  dispatch message l tool_call st = (Ok l', st') ->
  exists args result w1 content response w2 text,
    json_loads E (fn_arguments (tc_function tool_call)) = inr args
    /\ call_tool E s (fn_name (tc_function tool_call)) args (world st)
       = (Ok result, w1)
    /\ py_get result "content" = Some content
    /\ completions_create E
         ((messages l ++ echo message) ++ [mk_Message "user" content]) None w1
       = (Ok response, w2)
    /\ first_text response = Some text
    /\ l' = mk_Locals
              ((messages l ++ echo message) ++ [mk_Message "user" content])
              (tool_results l ++ [(fn_name (tc_function tool_call), result)])
              ((final_text l
                  ++ [Some (trace_line (E := E)
                              (fn_name (tc_function tool_call)) args)])
                 ++ [text])
    /\ st' = mk_State w2 (self st)
               (log st
                  ++ [EvCallTool (fn_name (tc_function tool_call)) args;
                      EvComplete
                        ((messages l ++ echo message)
                           ++ [mk_Message "user" content])
                        None]).
Proof.
  unfold dispatch. intros Hs H.
  apply bind_Ok in H as (args & st1 & Hargs & H).
  apply loads_Ok in Hargs as [Hargs ->].
  apply bind_Ok in H as (s' & st1 & Hs' & H).
  apply the_session_Ok in Hs' as [Hs' ->].
  rewrite Hs in Hs'. inversion Hs'; subst s'.
  apply bind_Ok in H as (result & st1 & Hcall & H).
  apply request_Ok in Hcall as (w1 & Hcall & ->).
  apply bind_Ok in H as (content & st1 & Hcontent & H).
  pose proof (subscript_content_pure _ _ _ _ Hcontent) as ->.
  apply subscript_content_Ok in Hcontent.
  apply bind_Ok in H as (response & st1 & Hcreate & H).
  apply request_Ok in Hcreate as (w2 & Hcreate & ->).
  apply bind_Ok in H as (text & st1 & Htext & H).
  pose proof (first_content_pure _ _ _ _ Htext) as ->.
  apply first_content_Ok in Htext.
  unfold ret in H. inversion H; subst; clear H.
  cbn [world self log] in *.
  exists args, result, w1, content, response, w2, text.
  repeat (split; [assumption || reflexivity |]).
  rewrite <- (app_assoc (log st)). reflexivity.
Qed.

Lemma dispatch_all_exact message s calls :
  forall l (st : State E) l' st',
    session (self st) = Some s ->
    for_each (dispatch message) calls l st = (Ok l', st') ->
    exists d,
      tool_rounds E s message l (world st) calls d l' (world st')
      /\ log st' = log st ++ d
      /\ self st' = self st.
Proof.
  induction calls as [| tc calls IH]; intros l st l' st' Hs H; simpl in H.
  - unfold ret in H. inversion H; subst.
    exists []. rewrite app_nil_r. repeat split. constructor.
  - apply bind_Ok in H as (l1 & st1 & Hone & Hrest).
    apply (dispatch_exact _ _ _ _ s) in Hone
      as (args & result & w1 & content & response & w2 & text
          & Hargs & Hcall & Hcontent & Hcreate & Htext & -> & ->);
      [| exact Hs].
    apply IH in Hrest as (d & Hrounds & Hlog & Hself); [| exact Hs].
    cbn [world self log] in *.
    eexists. split; [| split].
    + econstructor; eauto.
    + rewrite Hlog, <- app_assoc. reflexivity.
    + exact Hself.
Qed.

Lemma inspect_all_exact s chs :
  forall l (st : State E) l' st',
    session (self st) = Some s ->
    for_each inspect chs l st = (Ok l', st') ->
    exists d,
      single_pass E s l (world st) chs d l' (world st')
      /\ log st' = log st ++ d
      /\ self st' = self st.
Proof.
  induction chs as [| ch chs IH]; intros l st l' st' Hs H; simpl in H.
  - unfold ret in H. inversion H; subst.
    exists []. rewrite app_nil_r. repeat split. constructor.
  - apply bind_Ok in H as (l1 & st1 & Hone & Hrest).
    unfold inspect in Hone.
    destruct (is_assistant (ch_message ch)) eqn:Hrole; cbn [andb] in Hone.
    + destruct (requested_calls (ch_message ch)) as [| tc calls] eqn:Hcalls;
        cbn [nonempty] in Hone.
      * destruct (has_content (ch_message ch)) eqn:Hcontent;
          inversion Hone; subst; clear Hone;
          (apply IH in Hrest as (d & Hpass & Hlog & Hself); [| exact Hs]);
          exists d; (split; [| split; assumption]).
        -- apply single_pass_plain; assumption.
        -- apply single_pass_other; [| exact Hpass].
           rewrite Hrole, Hcalls, Hcontent. reflexivity.
      * apply (dispatch_all_exact _ s) in Hone
          as (d1 & Hrounds & Hlog1 & Hself1); [| exact Hs].
        apply IH in Hrest as (d2 & Hpass & Hlog2 & Hself2);
          [| rewrite Hself1; exact Hs].
        exists (d1 ++ d2). split; [| split].
        -- apply single_pass_calls with (l1 := l1) (w1 := world st1);
             try assumption.
           ++ rewrite Hcalls. discriminate.
           ++ rewrite Hcalls. exact Hrounds.
        -- rewrite Hlog2, Hlog1, app_assoc. reflexivity.
        -- congruence.
    + inversion Hone; subst; clear Hone.
      apply IH in Hrest as (d & Hpass & Hlog & Hself); [| exact Hs].
      exists d. split; [| split; assumption].
      apply single_pass_other; [| exact Hpass]. rewrite Hrole. reflexivity.
Qed.

(** A query that returns, with everything it used. *)
Lemma process_query_exact query (st : State E) answer st' :
  process_query query st = (Ok answer, st') ->
  exists s tools w1 response w2 d l,
    session (self st) = Some s
    /\ list_tools E s (world st) = (Ok tools, w1)
    /\ completions_create E (first_transcript query)
         (Some (available_tools tools)) w1 = (Ok response, w2)
    /\ single_pass E s (mk_Locals (first_transcript query) [] []) w2
         (choices response) d l (world st')
    /\ log st'
       = log st ++ EvListTools
           :: EvComplete (first_transcript query) (Some (available_tools tools))
           :: d
    /\ self st' = self st
    /\ answer = join nl (present (final_text l)).
Proof.
  intros H.
  apply process_query_Ok in H
    as (s & tools & w1 & response & w2 & l & Hs & Htools & Hcreate & Hloop & ->).
  apply (inspect_all_exact s) in Hloop as (d & Hpass & Hlog & Hself);
    [| exact Hs].
  cbn [world self log] in *.
  exists s, tools, w1, response, w2, d, l.
  rewrite not_None_present, Hlog, <- app_assoc. auto 10.
Qed.

End Exact.

(** ** A query without tool calls *)

Lemma inspect_plain_all (E : Env) (chs : list Choice) :
  forallb (fun ch => is_assistant (ch_message ch)
                     && negb (nonempty (requested_calls (ch_message ch)))
                     && has_content (ch_message ch)) chs = true ->
  forall l (st : State E),
    for_each inspect chs l st
    = (Ok (mk_Locals (messages l) (tool_results l)
             (final_text l ++ map (fun ch => content_of (ch_message ch)) chs)),
       st).
Proof.
  induction chs as [| ch chs IH]; intros Hall l st; simpl.
  - rewrite app_nil_r. destruct l; reflexivity.
  - simpl in Hall. apply andb_true_iff in Hall as [Hch Hall].
    apply andb_true_iff in Hch as [Hch Hcontent].
    apply andb_true_iff in Hch as [Hrole Hcalls].
    apply negb_true_iff in Hcalls.
    unfold bind, inspect at 1.
    rewrite Hrole, Hcalls, Hcontent. cbn [andb ret].
    rewrite IH by exact Hall. cbn [messages tool_results final_text].
    rewrite <- app_assoc. reflexivity.
Qed.

(** C6. When the response to a query is one plain assistant message (no
    tool calls), [process_query] has sent exactly the tool listing and one
    completion request, has called no tool, and returns the message's
    content (the empty string when the content is [None]). *)
Theorem plain_answer_is_returned
  (E : Env) (query : string) (st : State E) s tools w1 message w2 content :
  session (self st) = Some s ->
  list_tools E s (world st) = (Ok tools, w1) ->
  completions_create E (first_transcript query)
    (Some (available_tools tools)) w1
  = (Ok (mk_Response [mk_Choice message]), w2) ->
  is_assistant message = true ->
  requested_calls message = [] ->
  cm_content message = Has content ->
  process_query query st
  = (Ok (shown content),
     mk_State w2 (self st)
       (log st ++ [EvListTools;
                   EvComplete (first_transcript query)
                     (Some (available_tools tools))])).
Proof.
  intros Hs Htools Hcreate Hrole Hcalls Hcontent.
  rewrite (process_query_step _ _ _ _ _ _ _ Hs Htools Hcreate).
  unfold bind. cbn [choices].
  rewrite inspect_plain_all.
  - cbn [final_text map ch_message app ret]. unfold content_of.
    rewrite Hcontent. destruct content; reflexivity.
  - cbn [forallb ch_message]. unfold has_content.
    rewrite Hrole, Hcalls, Hcontent. reflexivity.
Qed.

Lemma plain_answer_is_returned_witness :
  let st := Scripted.connected [Scripted.echo_tool] Scripted.pong
              [Scripted.says (Scripted.plain (Some "Paris."))] in
  process_query "capital of France?" st
  = (Ok "Paris.",
     Scripted.state [Scripted.echo_tool] Scripted.pong []
       [EvListTools;
        EvComplete [mk_Message "user" (PStr "capital of France?")]
          (Some (available_tools [Scripted.echo_tool]))]).
Proof.
  apply (plain_answer_is_returned
           (Scripted.env [Scripted.echo_tool] Scripted.pong)
           "capital of France?"
           (Scripted.connected [Scripted.echo_tool] Scripted.pong
              [Scripted.says (Scripted.plain (Some "Paris."))])
           tt [Scripted.echo_tool]
           [Scripted.says (Scripted.plain (Some "Paris."))]
           (mk_ChatMessage "assistant" None (Has (Some "Paris.")))
           [] (Some "Paris."));
    reflexivity.
Defined.

(** C10. [None] entries are dropped before the join.  For every query
    that returns, the answer is the newline-join of those entries of
    [final_text] that are not [None], [final_text] being what the pass
    over the first response gathered: per tool call its trace line and
    the content of the first choice of its follow-up answer, per plain
    assistant message its content.  So a content or a follow-up text
    that is [None] adds nothing to the answer, neither the text "None"
    nor a separator.  And a response made of plain assistant messages
    always returns, whatever their contents: with [None] contents only,
    the empty string. *)
Theorem None_content_is_dropped
  (E : Env) (query : string) (st : State E) :
  (forall answer st',
     process_query query st = (Ok answer, st') ->
     exists s tools w1 response w2 d l,
       session (self st) = Some s
       /\ list_tools E s (world st) = (Ok tools, w1)
       /\ completions_create E (first_transcript query)
            (Some (available_tools tools)) w1 = (Ok response, w2)
       /\ single_pass E s (mk_Locals (first_transcript query) [] []) w2
            (choices response) d l (world st')
       /\ answer = join nl (present (final_text l)))
  /\ (forall s tools w1 response w2,
        session (self st) = Some s ->
        list_tools E s (world st) = (Ok tools, w1) ->
        completions_create E (first_transcript query)
          (Some (available_tools tools)) w1 = (Ok response, w2) ->
        forallb (fun ch => is_assistant (ch_message ch)
                           && negb (nonempty (requested_calls (ch_message ch)))
                           && has_content (ch_message ch))
                (choices response) = true ->
        process_query query st
        = (Ok (join nl (present (map (fun ch => content_of (ch_message ch))
                                     (choices response)))),
           mk_State w2 (self st)
             (log st ++ [EvListTools;
                         EvComplete (first_transcript query)
                           (Some (available_tools tools))]))).
Proof.
  split.
  - intros answer st' H.
    apply process_query_exact in H
      as (s & tools & w1 & response & w2 & d & l
          & Hs & Htools & Hcreate & Hpass & _ & _ & Hanswer).
    exists s, tools, w1, response, w2, d, l. auto.
  - intros s tools w1 response w2 Hs Htools Hcreate Hplain.
    rewrite (process_query_step _ _ _ _ _ _ _ Hs Htools Hcreate).
    unfold bind. rewrite inspect_plain_all by exact Hplain.
    cbn [ret final_text app]. rewrite not_None_present. reflexivity.
Qed.

Lemma None_content_is_dropped_witness :
  let E := Scripted.env [Scripted.echo_tool] Scripted.pong in
  let st := Scripted.connected [Scripted.echo_tool] Scripted.pong
              [Scripted.says (Scripted.asks [("echo", "{}")]);
               Scripted.says (Scripted.plain None)] in
  let st0 := Scripted.connected [Scripted.echo_tool] Scripted.pong
               [Scripted.says (Scripted.plain None)] in
  (exists s tools w1 response w2 d l,
     session (self st) = Some s
     /\ list_tools E s (world st) = (Ok tools, w1)
     /\ completions_create E (first_transcript "ping?")
          (Some (available_tools tools)) w1 = (Ok response, w2)
     /\ single_pass E s (mk_Locals (first_transcript "ping?") [] []) w2
          (choices response) d l (world (snd (process_query "ping?" st)))
     /\ "[Calling tool echo with args {}]" = join nl (present (final_text l)))
  /\ process_query "hello" st0
     = (Ok "",
        Scripted.state [Scripted.echo_tool] Scripted.pong []
          [EvListTools;
           EvComplete [mk_Message "user" (PStr "hello")]
             (Some (available_tools [Scripted.echo_tool]))]).
Proof.
  split.
  - apply (proj1 (None_content_is_dropped
                    (Scripted.env [Scripted.echo_tool] Scripted.pong) "ping?"
                    (Scripted.connected [Scripted.echo_tool] Scripted.pong
                       [Scripted.says (Scripted.asks [("echo", "{}")]);
                        Scripted.says (Scripted.plain None)]))
                 "[Calling tool echo with args {}]").
    reflexivity.
  - apply (proj2 (None_content_is_dropped
                    (Scripted.env [Scripted.echo_tool] Scripted.pong) "hello"
                    (Scripted.connected [Scripted.echo_tool] Scripted.pong
                       [Scripted.says (Scripted.plain None)]))
                 tt [Scripted.echo_tool]
                 [Scripted.says (Scripted.plain None)]
                 (mk_Response [Scripted.plain None]) []);
      reflexivity.
Defined.

Example None_between_texts :
  fst (process_query "hello"
         (Scripted.connected [Scripted.echo_tool] Scripted.pong
            [Ok (mk_Response [Scripted.plain (Some "one"); Scripted.plain None;
                              Scripted.plain (Some "two")])]))
  = Ok ("one" ++ nl ++ "two")%string.
Proof. reflexivity. Qed.

(** The follow-up answer of a tool round is filtered in the same way. *)
Example None_after_a_tool_call :
  fst (process_query "hello"
         (Scripted.connected [Scripted.echo_tool] Scripted.pong
            [Scripted.says (Scripted.asks [("echo", "{}")]);
             Scripted.says (Scripted.plain None)]))
  = Ok "[Calling tool echo with args {}]".
Proof. reflexivity. Qed.

(** ** Tool rounds *)

Example one_tool_round :
  let run := process_query "ping?"
               (Scripted.connected [Scripted.echo_tool] Scripted.pong
                  [Scripted.says (Scripted.asks [("echo", "{}")]);
                   Scripted.says (Scripted.plain (Some "It answered pong."))]) in
  fst run = Ok ("[Calling tool echo with args {}]" ++ nl ++ "It answered pong.")%string
  /\ log (snd run)
     = [EvListTools;
        EvComplete [mk_Message "user" (PStr "ping?")]
          (Some (available_tools [Scripted.echo_tool]));
        EvCallTool "echo" (PDict []);
        EvComplete [mk_Message "user" (PStr "ping?");
                    mk_Message "user" (PStr "pong")] None].
Proof. split; reflexivity. Qed.

(** C1, as stated, fails: the first response asks for "echo", the
    follow-up response asks for "second"; [process_query] returns after
    the follow-up, with both prepared answers used up, two completion
    requests sent and "second" never called. *)
Lemma follow_up_request_is_dropped :
  let run := process_query "ping?"
               (Scripted.connected [Scripted.echo_tool] Scripted.pong
                  [Scripted.says (Scripted.asks [("echo", "{}")]);
                   Scripted.says (Scripted.asks [("second", "{}")])]) in
  fst run = Ok "[Calling tool echo with args {}]"
  /\ world (snd run) = []
  /\ called_tools (log (snd run)) = ["echo"]
  /\ completions (log (snd run)) = 2.
Proof. repeat split; reflexivity. Qed.

(** ** Reading a log piece by piece *)

Lemma called_tools_app (d1 d2 : list Event) :
  called_tools (d1 ++ d2) = called_tools d1 ++ called_tools d2.
Proof.
  induction d1 as [| ev d1 IH]; simpl; [reflexivity |].
  destruct ev; simpl; rewrite ?IH; reflexivity.
Qed.

Lemma completions_app (d1 d2 : list Event) :
  completions (d1 ++ d2) = completions d1 + completions d2.
Proof.
  induction d1 as [| ev d1 IH]; simpl; [reflexivity |].
  destruct ev; simpl; rewrite ?IH; reflexivity.
Qed.

Lemma transcripts_app (d1 d2 : list Event) :
  transcripts (d1 ++ d2) = transcripts d1 ++ transcripts d2.
Proof.
  induction d1 as [| ev d1 IH]; simpl; [reflexivity |].
  destruct ev; simpl; rewrite ?IH; reflexivity.
Qed.

Lemma tool_rounds_called (E : Env) s message l w calls d l' w' :
  tool_rounds E s message l w calls d l' w' ->
  called_tools d = names_of calls /\ completions d = List.length calls.
Proof.
  induction 1 as [| ? ? ? ? ? ? ? ? ? ? ? ? ? ? _ _ _ _ _ _ [IH1 IH2]];
    simpl; [auto |].
  unfold names_of in *. rewrite IH1, IH2. auto.
Qed.

Lemma single_pass_called (E : Env) s l w chs d l' w' :
  single_pass E s l w chs d l' w' ->
  called_tools d = names_of (flat_map calls_of chs)
  /\ completions d = List.length (flat_map calls_of chs).
Proof.
  induction 1 as [| l w ch rest d1 l1 w1 d2 l2 w2 Hrole _ Hrounds _ [IH1 IH2]
                  | l w ch rest d l2 w2 Hrole Hcalls _ _ [IH1 IH2]
                  | l w ch rest d l2 w2 Hskip _ [IH1 IH2]];
    cbn [flat_map].
  - simpl. auto.
  - assert (Hmine : calls_of ch = requested_calls (ch_message ch))
      by (unfold calls_of; rewrite Hrole; reflexivity).
    apply tool_rounds_called in Hrounds as [Hc1 Hc2].
    rewrite Hmine, called_tools_app, completions_app, Hc1, Hc2, IH1, IH2.
    unfold names_of. rewrite map_app, length_app. auto.
  - assert (Hmine : calls_of ch = [])
      by (unfold calls_of; rewrite Hrole; exact Hcalls).
    rewrite Hmine. simpl. auto.
  - assert (Hmine : calls_of ch = []).
    { unfold calls_of.
      destruct (is_assistant (ch_message ch)); cbn [andb] in Hskip;
        [| reflexivity].
      apply orb_false_iff in Hskip as [Hne _].
      destruct (requested_calls (ch_message ch)); [reflexivity | discriminate Hne]. }
    rewrite Hmine. simpl. auto.
Qed.

(** C1, amended. A query that returns has made one pass over the first
    response and nothing more.  After the tool listing and the first
    completion request it has gone through the choices of that response
    in order; for each tool call of an assistant message, in emission
    order, it has decoded the payload, called the tool server, appended
    the content of the result to the transcript as a user message, sent
    that transcript in one follow-up completion request, and kept of the
    follow-up response the content of its first choice only, as a line of
    the answer.  Whatever else a follow-up response holds, tool calls
    included, is never looked at: the tools called are exactly those the
    first response names, the follow-up requests are as many as its tool
    calls, and the query ends there. *)
Theorem process_query_single_pass
  (E : Env) (query : string) (st : State E) answer st' :
  process_query query st = (Ok answer, st') ->
  exists s tools w1 response w2 d l,
    session (self st) = Some s
    /\ list_tools E s (world st) = (Ok tools, w1)
    /\ completions_create E (first_transcript query)
         (Some (available_tools tools)) w1 = (Ok response, w2)
    /\ single_pass E s (mk_Locals (first_transcript query) [] []) w2
         (choices response) d l (world st')
    /\ log st'
       = log st ++ EvListTools
           :: EvComplete (first_transcript query) (Some (available_tools tools))
           :: d
    /\ self st' = self st
    /\ answer = join nl (present (final_text l))
    /\ called_tools d = names_of (initial_calls response)
    /\ completions d = List.length (initial_calls response).
Proof.
  intros H.
  apply process_query_exact in H
    as (s & tools & w1 & response & w2 & d & l
        & Hs & Htools & Hcreate & Hpass & Hlog & Hself & Hanswer).
  exists s, tools, w1, response, w2, d, l.
  destruct (single_pass_called _ _ _ _ _ _ _ _ Hpass) as [Hc1 Hc2].
  auto 12.
Qed.

Lemma process_query_single_pass_witness :
  let E := Scripted.env [Scripted.echo_tool] Scripted.pong in
  let st := Scripted.connected [Scripted.echo_tool] Scripted.pong
              [Scripted.says (Scripted.asks [("echo", "{}")]);
               Scripted.says (Scripted.asks [("second", "{}")])] in
  let st' := snd (process_query "ping?" st) in
  exists s tools w1 response w2 d l,
    session (self st) = Some s
    /\ list_tools E s (world st) = (Ok tools, w1)
    /\ completions_create E (first_transcript "ping?")
         (Some (available_tools tools)) w1 = (Ok response, w2)
    /\ single_pass E s (mk_Locals (first_transcript "ping?") [] []) w2
         (choices response) d l (world st')
    /\ log st'
       = log st ++ EvListTools
           :: EvComplete (first_transcript "ping?") (Some (available_tools tools))
           :: d
    /\ self st' = self st
    /\ "[Calling tool echo with args {}]" = join nl (present (final_text l))
    /\ called_tools d = names_of (initial_calls response)
    /\ completions d = List.length (initial_calls response).
Proof.
  apply (process_query_single_pass
           (Scripted.env [Scripted.echo_tool] Scripted.pong) "ping?"
           (Scripted.connected [Scripted.echo_tool] Scripted.pong
              [Scripted.says (Scripted.asks [("echo", "{}")]);
               Scripted.says (Scripted.asks [("second", "{}")])])
           "[Calling tool echo with args {}]").
  reflexivity.
Defined.

Lemma subscript_content_missing (E : Env) (result : pyval) (st : State E) :
  py_get result "content" = None ->
  exists e,
    subscript_content result st = (Raise e, st)
    /\ (exn_cls e = KeyError \/ exn_cls e = TypeError).
Proof.
  unfold subscript_content, py_get, raise.
  destruct result as [| | | | | | items]; intros H;
    try (eexists; split; [reflexivity | simpl; auto]).
  rewrite H. eexists; split; [reflexivity | simpl; auto].
Qed.

Lemma subscript_content_found (E : Env) (result : pyval) (st : State E) content :
  py_get result "content" = Some content ->
  subscript_content result st = (Ok content, st).
Proof.
  unfold subscript_content, py_get, ret.
  destruct result as [| | | | | | items]; intros H; try discriminate.
  rewrite H. reflexivity.
Qed.

(** One tool call whose every step succeeds. *)
Lemma dispatch_round (E : Env) message l tool_call (st : State E)
      s args result w1 content response w2 text :
  session (self st) = Some s ->
  json_loads E (fn_arguments (tc_function tool_call)) = inr args ->
  call_tool E s (fn_name (tc_function tool_call)) args (world st)
  = (Ok result, w1) ->
  py_get result "content" = Some content ->
  completions_create E
    ((messages l ++ echo message) ++ [mk_Message "user" content]) None w1
  = (Ok response, w2) ->
  first_text response = Some text ->
  dispatch message l tool_call st
  = (Ok (mk_Locals
           ((messages l ++ echo message) ++ [mk_Message "user" content])
           (tool_results l ++ [(fn_name (tc_function tool_call), result)])
           ((final_text l
               ++ [Some (trace_line (E := E)
                           (fn_name (tc_function tool_call)) args)])
              ++ [text])),
     mk_State w2 (self st)
       ((log st ++ [EvCallTool (fn_name (tc_function tool_call)) args])
          ++ [EvComplete
                ((messages l ++ echo message) ++ [mk_Message "user" content])
                None])).
Proof.
  intros Hs Hargs Hcall Hcontent Hcreate Htext. unfold dispatch.
  rewrite (bind_step _ _ _ _ _ (loads_step _ _ _ Hargs)).
  rewrite (bind_step _ _ _ _ _ (the_session_step _ _ _ Hs)).
  rewrite (bind_step _ _ _ _ _ (request_step _ _ _ _ _ Hcall)).
  rewrite (bind_step _ _ _ _ _ (subscript_content_found _ _ _ _ Hcontent)).
  erewrite bind_step; cycle 1.
  { apply request_step. cbn [world]. exact Hcreate. }
  erewrite bind_step; cycle 1.
  { apply first_content_step. exact Htext. }
  reflexivity.
Qed.

(** C2, as stated, fails: the message asks for two tool calls, the tool
    server refuses the first; the query raises there, the tool server has
    been called once, not twice, and no follow-up completion request has
    been sent (the one completion request is the first one). *)
Lemma first_call_fails :
  let run := process_query "ping?"
               (Scripted.connected [Scripted.echo_tool] Scripted.only_echo
                  [Scripted.says (Scripted.asks [("ghost", "{}"); ("echo", "{}")]);
                   Scripted.says (Scripted.plain (Some "first"));
                   Scripted.says (Scripted.plain (Some "second"))]) in
  fst run = Raise (mk_exn RuntimeError "Unknown tool: ghost")
  /\ called_tools (log (snd run)) = ["ghost"]
  /\ completions (log (snd run)) = 1.
Proof. repeat split; reflexivity. Qed.

(** C2, amended. Let a query reach an assistant message that asks for
    the two tool calls [call1] and [call2], and let every step of both
    rounds succeed: each payload decodes, each tool call returns a result
    with a content, each follow-up answer has a first choice with a
    content attribute.  Then the tool server is called exactly twice, in
    emission order, and exactly two follow-up completion requests are
    sent, each right after its tool result and before anything else: the
    first follow-up carries the transcript with the first result only
    and is answered before the second tool call is made (that call meets
    the collaborators as the first follow-up left them), the second
    carries that transcript extended by the second result.  The query
    then goes on with the choices after the message. *)
Theorem two_calls_two_follow_ups
  (E : Env) (query : string) (st : State E)
  s tools w1 response w2 before message after l1 st1 call1 call2
  args1 result1 wa content1 response1 wb text1
  args2 result2 wc content2 response2 wd text2 :
  session (self st) = Some s ->
  list_tools E s (world st) = (Ok tools, w1) ->
  completions_create E (first_transcript query)
    (Some (available_tools tools)) w1 = (Ok response, w2) ->
  choices response = before ++ mk_Choice message :: after ->
  for_each inspect before
    (mk_Locals (first_transcript query) [] [])
    (mk_State w2 (self st)
       (log st ++ [EvListTools;
                   EvComplete (first_transcript query)
                     (Some (available_tools tools))]))
  = (Ok l1, st1) ->
  is_assistant message = true ->
  cm_tool_calls message = Some [call1; call2] ->
  let name1 := fn_name (tc_function call1) in
  let name2 := fn_name (tc_function call2) in
  let t1 := (messages l1 ++ echo message) ++ [mk_Message "user" content1] in
  let t2 := (t1 ++ echo message) ++ [mk_Message "user" content2] in
  json_loads E (fn_arguments (tc_function call1)) = inr args1 ->
  call_tool E s name1 args1 (world st1) = (Ok result1, wa) ->
  py_get result1 "content" = Some content1 ->
  completions_create E t1 None wa = (Ok response1, wb) ->
  first_text response1 = Some text1 ->
  json_loads E (fn_arguments (tc_function call2)) = inr args2 ->
  call_tool E s name2 args2 wb = (Ok result2, wc) ->
  py_get result2 "content" = Some content2 ->
  completions_create E t2 None wc = (Ok response2, wd) ->
  first_text response2 = Some text2 ->
  process_query query st
  = bind
      (for_each inspect after
         (mk_Locals t2
            (tool_results l1 ++ [(name1, result1); (name2, result2)])
            (final_text l1
               ++ [Some (trace_line (E := E) name1 args1); text1;
                   Some (trace_line (E := E) name2 args2); text2])))
      (fun l => ret (join nl (not_None (final_text l))))
      (mk_State wd (self st1)
         (log st1
            ++ [EvCallTool name1 args1; EvComplete t1 None;
                EvCallTool name2 args2; EvComplete t2 None])).
Proof.
  intros Hs Htools Hcreate Hchoices Hbefore Hrole Hcalls name1 name2 t1 t2
         Hargs1 Hcall1 Hcontent1 Hcreate1 Htext1
         Hargs2 Hcall2 Hcontent2 Hcreate2 Htext2.
  assert (Hs1 : session (self st1) = Some s).
  { apply inspect_all_Ok in Hbefore as (_ & _ & _ & Hself).
    rewrite Hself. exact Hs. }
  rewrite (process_query_step _ _ _ _ _ _ _ Hs Htools Hcreate).
  rewrite Hchoices.
  unfold bind at 1. rewrite for_each_app.
  rewrite (bind_step _ _ _ _ _ Hbefore).
  cbn [for_each]. unfold bind at 1 2.
  unfold inspect at 1. cbn [ch_message].
  assert (Hreq : requested_calls message = [call1; call2])
    by (unfold requested_calls; rewrite Hcalls; reflexivity).
  rewrite Hrole, Hreq. cbn [nonempty andb for_each].
  unfold bind at 1.
  rewrite (dispatch_round E message l1 call1 st1 s args1 result1 wa content1
             response1 wb text1 Hs1 Hargs1 Hcall1 Hcontent1 Hcreate1 Htext1).
  unfold bind at 1.
  erewrite (dispatch_round E message _ call2 _ s args2 result2 wc content2
              response2 wd text2);
    [ | exact Hs1 | exact Hargs2 | exact Hcall2 | exact Hcontent2
      | exact Hcreate2 | exact Htext2 ].
  cbn [ret messages tool_results final_text world self log].
  unfold bind, name1, name2, t2, t1.
  rewrite <- !app_assoc. reflexivity.
Qed.

Lemma two_calls_two_follow_ups_witness :
  let st := Scripted.connected [Scripted.echo_tool] Scripted.pong
              [Scripted.says (Scripted.asks [("echo", "{}"); ("echo", "5")]);
               Scripted.says (Scripted.plain (Some "first"));
               Scripted.says (Scripted.plain (Some "second"))] in
  process_query "ping?" st
  = (Ok ("[Calling tool echo with args {}]" ++ nl ++ "first" ++ nl
         ++ "[Calling tool echo with args 5]" ++ nl ++ "second")%string,
     Scripted.state [Scripted.echo_tool] Scripted.pong []
       [EvListTools;
        EvComplete [mk_Message "user" (PStr "ping?")]
          (Some (available_tools [Scripted.echo_tool]));
        EvCallTool "echo" (PDict []);
        EvComplete [mk_Message "user" (PStr "ping?");
                    mk_Message "user" (PStr "pong")] None;
        EvCallTool "echo" (PInt 5);
        EvComplete [mk_Message "user" (PStr "ping?");
                    mk_Message "user" (PStr "pong");
                    mk_Message "user" (PStr "pong")] None]).
Proof.
  apply (two_calls_two_follow_ups
           (Scripted.env [Scripted.echo_tool] Scripted.pong) "ping?"
           (Scripted.connected [Scripted.echo_tool] Scripted.pong
              [Scripted.says (Scripted.asks [("echo", "{}"); ("echo", "5")]);
               Scripted.says (Scripted.plain (Some "first"));
               Scripted.says (Scripted.plain (Some "second"))])
           tt [Scripted.echo_tool]
           [Scripted.says (Scripted.asks [("echo", "{}"); ("echo", "5")]);
            Scripted.says (Scripted.plain (Some "first"));
            Scripted.says (Scripted.plain (Some "second"))]
           (mk_Response [Scripted.asks [("echo", "{}"); ("echo", "5")]])
           [Scripted.says (Scripted.plain (Some "first"));
            Scripted.says (Scripted.plain (Some "second"))]
           []
           (mk_ChatMessage "assistant"
              (Some [mk_ToolCall "call" (mk_FunctionCall "echo" "{}");
                     mk_ToolCall "call" (mk_FunctionCall "echo" "5")])
              (Has None))
           []
           (mk_Locals (first_transcript "ping?") [] [])
           (Scripted.state [Scripted.echo_tool] Scripted.pong
              [Scripted.says (Scripted.plain (Some "first"));
               Scripted.says (Scripted.plain (Some "second"))]
              [EvListTools;
               EvComplete (first_transcript "ping?")
                 (Some (available_tools [Scripted.echo_tool]))])
           (mk_ToolCall "call" (mk_FunctionCall "echo" "{}"))
           (mk_ToolCall "call" (mk_FunctionCall "echo" "5"))
           (PDict []) (PDict [("content", PStr "pong")])
           [Scripted.says (Scripted.plain (Some "first"));
            Scripted.says (Scripted.plain (Some "second"))]
           (PStr "pong")
           (mk_Response [Scripted.plain (Some "first")])
           [Scripted.says (Scripted.plain (Some "second"))]
           (Some "first")
           (PInt 5) (PDict [("content", PStr "pong")])
           [Scripted.says (Scripted.plain (Some "second"))]
           (PStr "pong")
           (mk_Response [Scripted.plain (Some "second")])
           []
           (Some "second"));
    reflexivity.
Defined.

Example two_calls_interleaved :
  log (snd (process_query "ping?"
              (Scripted.connected [Scripted.echo_tool] Scripted.pong
                 [Scripted.says (Scripted.asks [("echo", "{}"); ("echo", "5")]);
                  Scripted.says (Scripted.plain (Some "first"));
                  Scripted.says (Scripted.plain (Some "second"))])))
  = [EvListTools;
     EvComplete [mk_Message "user" (PStr "ping?")]
       (Some (available_tools [Scripted.echo_tool]));
     EvCallTool "echo" (PDict []);
     EvComplete [mk_Message "user" (PStr "ping?");
                 mk_Message "user" (PStr "pong")] None;
     EvCallTool "echo" (PInt 5);
     EvComplete [mk_Message "user" (PStr "ping?");
                 mk_Message "user" (PStr "pong");
                 mk_Message "user" (PStr "pong")] None].
Proof. reflexivity. Qed.

(** ** Tool names and arguments *)

Lemma dispatch_sends (E : Env) message l tool_call (st : State E) s args o st' :
  session (self st) = Some s ->
  json_loads E (fn_arguments (tc_function tool_call)) = inr args ->
  dispatch message l tool_call st = (o, st') ->
  exists d,
    log st' = log st ++ EvCallTool (fn_name (tc_function tool_call)) args :: d
    /\ forall e w,
         call_tool E s (fn_name (tc_function tool_call)) args (world st)
         = (Raise e, w) ->
         o = Raise e /\ d = [].
Proof.
  intros Hs Hargs. unfold dispatch.
  rewrite (bind_step _ _ _ _ _ (loads_step _ _ _ Hargs)).
  rewrite (bind_step _ _ _ _ _ (the_session_step _ _ _ Hs)).
  unfold bind at 1, request at 1.
  destruct (call_tool E s (fn_name (tc_function tool_call)) args (world st))
    as [[result | e] w]; intros H.
  - assert (Hgrows : exists d,
               log st' = (log st ++ [EvCallTool (fn_name (tc_function tool_call)) args]) ++ d).
    { revert H. generalize st'. generalize o.
      match goal with
      | |- forall o0 st0, ?m ?stA = _ -> _ =>
          change (forall o0 st0, m stA = (o0, st0) ->
                   exists d, log st0 = log stA ++ d)
      end.
      apply grows_bind; [apply grows_pure, subscript_content_pure | intros content].
      apply grows_bind; [apply grows_request | intros response].
      apply grows_bind; [apply grows_pure, first_content_pure | intros text].
      apply grows_ret. }
    destruct Hgrows as [d Hd]. exists d. split.
    + rewrite Hd, <- app_assoc. reflexivity.
    + intros e w' Habs. discriminate Habs.
  - inversion H; subst. exists []. split; [reflexivity |].
    intros e' w' Heq. inversion Heq; subst. auto.
Qed.

(** C4, as stated, fails: with only "echo" listed, a request for the tool
    "ghost" is passed to the tool server like any other; the query
    returns and the server has been called once, under that name. *)
Lemma unknown_tool_is_not_refused :
  let run := process_query "ping?"
               (Scripted.connected [Scripted.echo_tool] Scripted.pong
                  [Scripted.says (Scripted.asks [("ghost", "{}")]);
                   Scripted.says (Scripted.plain (Some "done"))]) in
  ~ In "ghost" (map tool_name [Scripted.echo_tool])
  /\ fst run = Ok ("[Calling tool ghost with args {}]" ++ nl ++ "done")%string
  /\ called_tools (log (snd run)) = ["ghost"].
Proof.
  split; [| split; reflexivity].
  simpl. intros [H | []]. discriminate H.
Qed.

(** C4, amended. [process_query] never looks a requested name up in the
    tool list: whatever [list_tools] returned, a tool call that is
    reached with decodable arguments is sent to the tool server under the
    name the response gave, once, and if the server raises, that
    exception is the outcome of the query. *)
Theorem requested_tool_is_called_unchecked
  (E : Env) (query : string) (st : State E) tools message l tool_call st1
  s args :
  reaches query st tools message l tool_call st1 ->
  session (self st) = Some s ->
  json_loads E (fn_arguments (tc_function tool_call)) = inr args ->
  exists o st' d,
    process_query query st = (o, st')
    /\ log st'
       = log st1 ++ EvCallTool (fn_name (tc_function tool_call)) args :: d
    /\ forall e w,
         call_tool E s (fn_name (tc_function tool_call)) args (world st1)
         = (Raise e, w) ->
         o = Raise e /\ d = [].
Proof.
  intros Hreach Hs Hargs.
  pose proof (reaches_self _ _ _ _ _ _ _ Hreach) as Hself.
  apply reaches_continue in Hreach as (todo & after & ->).
  rewrite <- Hself in Hs.
  unfold bind at 1.
  destruct (dispatch message l tool_call st1) as [[l2 | e] st2] eqn:Hone.
  - destruct (dispatch_sends _ _ _ _ _ _ _ _ _ Hs Hargs Hone) as (d1 & Hlog & Hfail).
    match goal with
    | |- exists o st' d, ?k ?x = _ /\ _ =>
        destruct (k x) as [o st'] eqn:Hrest
    end.
    assert (Hgrows : exists d2, log st' = log st2 ++ d2).
    { revert Hrest. generalize st'. generalize o.
      match goal with
      | |- forall o0 st0, ?m ?stA = _ -> _ =>
          change (forall o0 st0, m stA = (o0, st0) ->
                   exists d, log st0 = log stA ++ d)
      end.
      apply grows_bind.
      - apply grows_for_each. intros. apply grows_dispatch.
      - intros l3. apply grows_bind.
        + apply grows_for_each. intros. apply grows_inspect.
        + intros l4. apply grows_ret. }
    destruct Hgrows as [d2 Hd2].
    exists o, st', (d1 ++ d2). split; [reflexivity | split].
    + rewrite Hd2, Hlog, <- app_assoc. reflexivity.
    + intros e w Hraise. apply Hfail in Hraise as [Habs _]. discriminate Habs.
  - destruct (dispatch_sends _ _ _ _ _ _ _ _ _ Hs Hargs Hone) as (d1 & Hlog & Hfail).
    exists (Raise e), st2, d1. split; [reflexivity | split].
    + exact Hlog.
    + intros e' w Hraise. apply Hfail in Hraise as [Heq ->].
      inversion Heq; subst. auto.
Qed.

Lemma requested_tool_is_called_unchecked_witness :
  let E := Scripted.env [Scripted.echo_tool] Scripted.pong in
  let st := Scripted.connected [Scripted.echo_tool] Scripted.pong
              [Scripted.says (Scripted.asks [("ghost", "{}")]);
               Scripted.says (Scripted.plain (Some "done"))] in
  let st1 := Scripted.state [Scripted.echo_tool] Scripted.pong
               [Scripted.says (Scripted.plain (Some "done"))]
               [EvListTools;
                EvComplete (first_transcript "ping?")
                  (Some (available_tools [Scripted.echo_tool]))] in
  exists o st' d,
    process_query "ping?" st = (o, st')
    /\ log st' = log st1 ++ EvCallTool "ghost" (PDict []) :: d
    /\ forall e w,
         call_tool E tt "ghost" (PDict []) (world st1) = (Raise e, w) ->
         o = Raise e /\ d = [].
Proof.
  apply (requested_tool_is_called_unchecked
           (Scripted.env [Scripted.echo_tool] Scripted.pong) "ping?"
           (Scripted.connected [Scripted.echo_tool] Scripted.pong
              [Scripted.says (Scripted.asks [("ghost", "{}")]);
               Scripted.says (Scripted.plain (Some "done"))])
           [Scripted.echo_tool]
           (mk_ChatMessage "assistant"
              (Some [mk_ToolCall "call" (mk_FunctionCall "ghost" "{}")])
              (Has None))
           (mk_Locals (first_transcript "ping?") [] [])
           (mk_ToolCall "call" (mk_FunctionCall "ghost" "{}"))
           (Scripted.state [Scripted.echo_tool] Scripted.pong
              [Scripted.says (Scripted.plain (Some "done"))]
              [EvListTools;
               EvComplete (first_transcript "ping?")
                 (Some (available_tools [Scripted.echo_tool]))])
           tt (PDict [])).
  - exists tt,
      [Scripted.says (Scripted.asks [("ghost", "{}")]);
       Scripted.says (Scripted.plain (Some "done"))],
      (mk_Response [Scripted.asks [("ghost", "{}")]]),
      [Scripted.says (Scripted.plain (Some "done"))],
      [], [], [], [].
    do 2 eexists. repeat split; reflexivity.
  - reflexivity.
  - reflexivity.
Defined.

Example server_refuses_unknown_tool :
  let run := process_query "ping?"
               (Scripted.connected [Scripted.echo_tool] Scripted.only_echo
                  [Scripted.says (Scripted.asks [("ghost", "{}")])]) in
  fst run = Raise (mk_exn RuntimeError "Unknown tool: ghost")
  /\ called_tools (log (snd run)) = ["ghost"].
Proof. split; reflexivity. Qed.

(** C5, as stated, fails: the payload 5 is no structured object, yet it
    decodes, and the number is passed to the tool server as the
    arguments; nothing is raised on its account and the query returns. *)
Lemma number_as_arguments :
  let run := process_query "ping?"
               (Scripted.connected [Scripted.echo_tool] Scripted.pong
                  [Scripted.says (Scripted.asks [("echo", "5")]);
                   Scripted.says (Scripted.plain (Some "done"))]) in
  Scripted.decode "5" = inr (PInt 5)
  /\ fst run = Ok ("[Calling tool echo with args 5]" ++ nl ++ "done")%string
  /\ log (snd run)
     = [EvListTools;
        EvComplete [mk_Message "user" (PStr "ping?")]
          (Some (available_tools [Scripted.echo_tool]));
        EvCallTool "echo" (PInt 5);
        EvComplete [mk_Message "user" (PStr "ping?");
                    mk_Message "user" (PStr "pong")] None].
Proof. repeat split; reflexivity. Qed.

(** C5, amended. When [process_query] reaches a tool call whose argument
    payload [json.loads] refuses, the exception that [json.loads] raised
    is what the query raises, and nothing else happens: the tool is not
    called, no further completion is requested, no answer is returned,
    not even the text gathered so far; the state is the one in which the
    call was reached. *)
Theorem undecodable_arguments_raise
  (E : Env) (query : string) (st : State E) tools message l tool_call st1 e :
  reaches query st tools message l tool_call st1 ->
  json_loads E (fn_arguments (tc_function tool_call)) = inl e ->
  process_query query st = (Raise e, st1).
Proof.
  intros Hreach Hargs.
  apply reaches_continue in Hreach as (todo & after & ->).
  apply bind_Raise, dispatch_undecodable, Hargs.
Qed.

Lemma undecodable_arguments_raise_witness :
  process_query "ping?"
    (Scripted.connected [Scripted.echo_tool] Scripted.pong
       [Scripted.says (Scripted.asks [("echo", "oops")]);
        Scripted.says (Scripted.plain (Some "done"))])
  = (Raise (mk_exn JSONDecodeError "Expecting value: line 1 column 1 (char 0)"),
     Scripted.state [Scripted.echo_tool] Scripted.pong
       [Scripted.says (Scripted.plain (Some "done"))]
       [EvListTools;
        EvComplete (first_transcript "ping?")
          (Some (available_tools [Scripted.echo_tool]))]).
Proof.
  apply (undecodable_arguments_raise
           (Scripted.env [Scripted.echo_tool] Scripted.pong) "ping?"
           (Scripted.connected [Scripted.echo_tool] Scripted.pong
              [Scripted.says (Scripted.asks [("echo", "oops")]);
               Scripted.says (Scripted.plain (Some "done"))])
           [Scripted.echo_tool]
           (mk_ChatMessage "assistant"
              (Some [mk_ToolCall "call" (mk_FunctionCall "echo" "oops")])
              (Has None))
           (mk_Locals (first_transcript "ping?") [] [])
           (mk_ToolCall "call" (mk_FunctionCall "echo" "oops"))).
  - exists tt,
      [Scripted.says (Scripted.asks [("echo", "oops")]);
       Scripted.says (Scripted.plain (Some "done"))],
      (mk_Response [Scripted.asks [("echo", "oops")]]),
      [Scripted.says (Scripted.plain (Some "done"))],
      [], [], [], [].
    do 2 eexists. repeat split; reflexivity.
  - reflexivity.
Defined.

(** A query whose first response holds an undecodable payload anywhere
    among its tool calls never returns an answer. *)
Lemma undecodable_never_answers
  (E : Env) (query : string) (st : State E) s tools w1 response w2
  tool_call why :
  session (self st) = Some s ->
  list_tools E s (world st) = (Ok tools, w1) ->
  completions_create E (first_transcript query)
    (Some (available_tools tools)) w1 = (Ok response, w2) ->
  In tool_call (initial_calls response) ->
  json_loads E (fn_arguments (tc_function tool_call)) = inl why ->
  exists e st', process_query query st = (Raise e, st').
Proof.
  intros Hs Htools Hcreate Hin Hargs.
  destruct (process_query query st) as [[answer | e] st'] eqn:Hrun; [| eauto].
  apply process_query_Ok in Hrun
    as (s' & tools' & w1' & response' & w2' & l & Hs' & Htools' & Hcreate'
        & Hloop & _).
  rewrite Hs in Hs'. inversion Hs'; subst s'.
  rewrite Htools in Htools'. inversion Htools'; subst tools' w1'.
  rewrite Hcreate in Hcreate'. inversion Hcreate'; subst response' w2'.
  apply inspect_all_Ok in Hloop as (d & _ & Hrounds & _).
  apply rounds_decoded in Hrounds.
  rewrite Forall_forall in Hrounds.
  destruct (Hrounds _ Hin) as [args Hok]. congruence.
Qed.

(** * Further properties of the client *)

(** ** What a computation may log *)

Section Emits.

Context {E : Env}.

Lemma emits_ret {A} allowed (a : A) : emits (E := E) allowed (ret a).
Proof.
  intros st o st' H. inversion H; subst. split; [reflexivity |].
  exists []. rewrite app_nil_r. auto.
Qed.

Lemma emits_pure {A} allowed (m : M E A) :
  (forall st o st', m st = (o, st') -> st' = st) -> emits allowed m.
Proof.
  intros Hm st o st' H. apply Hm in H as ->. split; [reflexivity |].
  exists []. rewrite app_nil_r. auto.
Qed.

Lemma emits_bind {A B} allowed (m : M E A) (k : A -> M E B) :
  emits allowed m -> (forall a, emits allowed (k a)) -> emits allowed (bind m k).
Proof.
  intros Hm Hk st o st' H. unfold bind in H.
  destruct (m st) as [[a | e] st1] eqn:Hrun.
  - apply Hm in Hrun as (Hs1 & d1 & Hl1 & Ha1).
    apply Hk in H as (Hs2 & d2 & Hl2 & Ha2).
    split; [congruence |].
    exists (d1 ++ d2). rewrite Hl2, Hl1, app_assoc, forallb_app, Ha1, Ha2. auto.
  - inversion H; subst. eapply Hm; eauto.
Qed.

Lemma emits_request {A} allowed ev (f : World E -> Outcome A * World E) :
  allowed ev = true -> emits allowed (request ev f).
Proof.
  intros Hev st o st' H. unfold request in H.
  destruct (f (world st)) as [r w]. inversion H; subst. simpl.
  split; [reflexivity |]. exists [ev]. simpl. rewrite Hev. auto.
Qed.

Lemma emits_emit allowed ev :
  allowed ev = true -> emits (E := E) allowed (emit ev).
Proof.
  intros Hev st o st' H. inversion H; subst. simpl.
  split; [reflexivity |]. exists [ev]. simpl. rewrite Hev. auto.
Qed.

Lemma emits_for_each {A S} allowed (body : S -> A -> M E S) xs :
  (forall s x, emits allowed (body s x)) ->
  forall s, emits allowed (for_each body xs s).
Proof.
  intros Hbody. induction xs as [| x xs IH]; intros s; simpl.
  - apply emits_ret.
  - apply emits_bind; auto.
Qed.

Lemma emits_weaken {A} (allowed allowed' : Event -> bool) (m : M E A) :
  (forall ev, allowed ev = true -> allowed' ev = true) ->
  emits allowed m -> emits allowed' m.
Proof.
  intros Himp Hm st o st' H.
  apply Hm in H as (Hs & d & Hl & Ha).
  split; [exact Hs |]. exists d. split; [exact Hl |].
  rewrite forallb_forall in *. auto.
Qed.

Lemma emits_dispatch message l tool_call :
  emits round_event (dispatch (E := E) message l tool_call).
Proof.
  unfold dispatch.
  apply emits_bind; [apply emits_pure, loads_pure | intros args].
  apply emits_bind; [apply emits_pure, the_session_pure | intros s].
  apply emits_bind; [apply emits_request; reflexivity | intros result].
  apply emits_bind; [apply emits_pure, subscript_content_pure | intros content].
  apply emits_bind; [apply emits_request; reflexivity | intros response].
  apply emits_bind; [apply emits_pure, first_content_pure | intros text].
  apply emits_ret.
Qed.

Lemma emits_inspect l choice :
  emits round_event (inspect (E := E) l choice).
Proof.
  unfold inspect. destruct (_ && _).
  - apply emits_for_each. intros. apply emits_dispatch.
  - destruct (_ && _); apply emits_ret.
Qed.

Lemma round_is_query ev : round_event ev = true -> query_event ev = true.
Proof. destruct ev as [| | | | | ? [] | |]; simpl; congruence. Qed.

Lemma query_is_loop ev : query_event ev = true -> loop_event ev = true.
Proof. destruct ev; simpl; congruence. Qed.

Lemma emits_process_query query :
  emits query_event (process_query (E := E) query).
Proof.
  unfold process_query.
  apply emits_bind; [apply emits_pure, the_session_pure | intros s].
  apply emits_bind; [apply emits_request; reflexivity | intros tools].
  apply emits_bind; [apply emits_request; reflexivity | intros response].
  apply emits_bind; [| intros l; apply emits_ret].
  apply emits_for_each. intros l choice.
  eapply emits_weaken; [apply round_is_query | apply emits_inspect].
Qed.

Lemma emits_try_except {A} allowed (body : M E A) handler :
  emits allowed body ->
  (forall e h, handler e = Some h -> emits allowed h) ->
  emits allowed (try_except body handler).
Proof.
  intros Hbody Hh st o st' H. unfold try_except in H.
  destruct (body st) as [[a | e] st1] eqn:Hrun.
  - inversion H; subst. eapply Hbody; eauto.
  - destruct (handler e) as [h |] eqn:Hhe.
    + apply Hbody in Hrun as (Hs1 & d1 & Hl1 & Ha1).
      apply (Hh _ _ Hhe) in H as (Hs2 & d2 & Hl2 & Ha2).
      split; [congruence |].
      exists (d1 ++ d2). rewrite Hl2, Hl1, app_assoc, forallb_app, Ha1, Ha2. auto.
    + inversion H; subst. eapply Hbody; eauto.
Qed.

Lemma emits_read_loop lines : emits loop_event (read_loop (E := E) lines).
Proof.
  induction lines as [| line rest IH]; cbn [read_loop].
  - apply emits_bind; [apply emits_emit; reflexivity | intros _].
    apply emits_pure. intros st o st' H. inversion H; reflexivity.
  - apply emits_bind; [apply emits_emit; reflexivity | intros _].
    destruct (String.eqb (lower (strip line)) "quit").
    + apply emits_ret.
    + apply emits_bind; [| intros _; exact IH].
      apply emits_try_except.
      * unfold answer_query. apply emits_bind.
        -- eapply emits_weaken; [apply query_is_loop | apply emits_process_query].
        -- intros response. apply emits_emit. reflexivity.
      * intros e h Hh. unfold report in Hh.
        destruct (is_UnicodeDecodeError (exn_cls e));
          [| destruct (is_Exception (exn_cls e)); [| discriminate]];
          inversion Hh; subst; apply emits_emit; reflexivity.
Qed.

Lemma emits_chat_loop lines : emits loop_event (chat_loop (E := E) lines).
Proof.
  unfold chat_loop, print.
  apply emits_bind; [apply emits_emit; reflexivity | intros _].
  apply emits_bind; [apply emits_emit; reflexivity | intros _].
  apply emits_read_loop.
Qed.

End Emits.


(** ** Runs that may fail *)

Section AnyOutcome.

Context {E : Env}.








End AnyOutcome.

(** ** Every query, whatever its outcome *)

(** X1. Whatever a query's outcome, it leaves the client object alone
    and its requests have one shape: nothing at all (no session), or the
    tool listing alone, or the tool listing, then the one completion
    request that carries the user's query and the tool declarations,
    then only tool calls and completion requests without declarations.
    A query never prints, reads input or touches the connection. *)
Theorem process_query_log_shape
  (E : Env) (query : string) (st : State E) o st' :
  process_query query st = (o, st') ->
  self st' = self st
  /\ ((session (self st) = None /\ log st' = log st)
      \/ log st' = log st ++ [EvListTools]
      \/ exists tools d,
           log st'
           = log st ++ EvListTools
               :: EvComplete (first_transcript query)
                    (Some (available_tools tools))
               :: d
           /\ forallb round_event d = true).
Proof.
  intros H. split.
  - eapply emits_process_query; eauto.
  - unfold process_query in H. unfold bind at 1 in H.
    destruct (the_session "list_tools" st) as [[s | e] st0] eqn:Hs.
    2:{ pose proof (the_session_pure _ _ _ _ Hs) as ->.
        inversion H; subst. left. split; [| reflexivity].
        unfold the_session, bind, get_self, ret in Hs.
        destruct (session (self st')); [discriminate | reflexivity]. }
    apply the_session_pure in Hs as ->.
    unfold bind at 1, request at 1 in H.
    destruct (list_tools E s (world st)) as [[tools | e] w1].
    2:{ inversion H; subst. right. left. reflexivity. }
    unfold bind at 1, request at 1 in H. cbn [world self log] in H.
    destruct (completions_create E _ _ w1) as [[response | e] w2].
    2:{ inversion H; subst. right. right. exists tools, []. simpl.
        rewrite <- app_assoc. auto. }
    right. right. exists tools.
    assert (Hrest : emits round_event
              (bind (for_each inspect (choices response)
                       (mk_Locals (first_transcript query) [] []))
                    (fun l => ret (E := E) (join nl (not_None (final_text l)))))).
    { apply emits_bind; [| intros; apply emits_ret].
      apply emits_for_each. intros. apply emits_inspect. }
    apply Hrest in H as (_ & d & Hlog & Hd).
    exists d. split; [| exact Hd].
    rewrite Hlog. simpl. rewrite <- !app_assoc. reflexivity.
Qed.

Lemma process_query_log_shape_witness :
  let st := Scripted.connected [Scripted.echo_tool] Scripted.pong
              [Scripted.says (Scripted.asks [("echo", "{}")])] in
  let run := process_query "ping?" st in
  self (snd run) = self st
  /\ ((session (self st) = None /\ log (snd run) = log st)
      \/ log (snd run) = log st ++ [EvListTools]
      \/ exists tools d,
           log (snd run)
           = log st ++ EvListTools
               :: EvComplete (first_transcript "ping?")
                    (Some (available_tools tools))
               :: d
           /\ forallb round_event d = true).
Proof.
  apply (process_query_log_shape
           (Scripted.env [Scripted.echo_tool] Scripted.pong) "ping?"
           (Scripted.connected [Scripted.echo_tool] Scripted.pong
              [Scripted.says (Scripted.asks [("echo", "{}")])])
           (fst (process_query "ping?"
                   (Scripted.connected [Scripted.echo_tool]
                      Scripted.pong
                      [Scripted.says (Scripted.asks [("echo", "{}")])])))).
  reflexivity.
Defined.



Example second_tool_fails :
  let run := process_query "ping?"
               (Scripted.connected [Scripted.echo_tool] Scripted.only_echo
                  [Scripted.says (Scripted.asks
                     [("echo", "{}"); ("ghost", "{}"); ("echo", "5")]);
                   Scripted.says (Scripted.plain (Some "first"))]) in
  fst run = Raise (mk_exn RuntimeError "Unknown tool: ghost")
  /\ called_tools (log (snd run)) = ["echo"; "ghost"]
  /\ completions (log (snd run)) = 2.
Proof. repeat split; reflexivity. Qed.

(** ** Queries that return *)

Section Returned.

Context {E : Env}.

Lemma rounds_transcripts ms calls d ms' :
  rounds E ms calls d ms' ->
  chain ms (transcripts d)
  /\ (exists more, ms' = ms ++ more)
  /\ (forallb chat_role ms = true ->
      Forall (fun t => forallb chat_role t = true) (transcripts d)
      /\ forallb chat_role ms' = true).
Proof.
  induction 1 as [ms | ms tc rest args said content evs ms' _ Hsaid _
                          (IHchain & (more & IHmore) & IHroles)].
  - simpl. repeat split; auto. exists []. now rewrite app_nil_r.
  - cbn [transcripts chain]. split; [| split].
    + split; [eexists; reflexivity | exact IHchain].
    + exists ((said ++ [mk_Message "user" content]) ++ more).
      rewrite IHmore, <- !app_assoc. reflexivity.
    + intros Hms.
      assert (Hnext : forallb chat_role (ms ++ said ++ [mk_Message "user" content])
                      = true).
      { rewrite !forallb_app, Hms. simpl.
        rewrite andb_true_r. apply forallb_forall. intros m Hm.
        rewrite Forall_forall in Hsaid. unfold chat_role.
        rewrite (Hsaid m Hm). apply orb_true_r. }
      destruct (IHroles Hnext) as [Hall Hend].
      split; [constructor; assumption | exact Hend].
Qed.

End Returned.

(** X3. The transcript is append-only.  In a query that returns, the
    first completion request carries the user's query alone, every later
    request carries the transcript of the request before it with more
    messages appended, and no message in any of them has a role other
    than "user" or "assistant" (tool results travel as user messages). *)
Theorem transcript_only_grows
  (E : Env) (query : string) (st : State E) answer st' :
  process_query query st = (Ok answer, st') ->
  exists tools d,
    log st'
    = log st ++ EvListTools
        :: EvComplete (first_transcript query) (Some (available_tools tools))
        :: d
    /\ chain (first_transcript query) (transcripts d)
    /\ Forall (fun t => forallb chat_role t = true) (transcripts d).
Proof.
  intros H.
  apply process_query_Ok in H
    as (s & tools & w1 & response & w2 & l & _ & _ & _ & Hloop & _).
  apply inspect_all_Ok in Hloop as (d & Hlog & Hrounds & _).
  cbn [log messages] in Hlog, Hrounds.
  apply rounds_transcripts in Hrounds as (Hchain & _ & Hroles).
  exists tools, d. split; [| split].
  - rewrite Hlog, <- app_assoc. reflexivity.
  - exact Hchain.
  - apply Hroles. reflexivity.
Qed.

Lemma transcript_only_grows_witness :
  let st := Scripted.connected [Scripted.echo_tool] Scripted.pong
              [Scripted.says (Scripted.asks [("echo", "{}"); ("echo", "5")]);
               Scripted.says (Scripted.plain (Some "first"));
               Scripted.says (Scripted.plain (Some "second"))] in
  exists tools d,
    log (snd (process_query "ping?" st))
    = log st ++ EvListTools
        :: EvComplete (first_transcript "ping?") (Some (available_tools tools))
        :: d
    /\ chain (first_transcript "ping?") (transcripts d)
    /\ Forall (fun t => forallb chat_role t = true) (transcripts d).
Proof.
  apply (transcript_only_grows
           (Scripted.env [Scripted.echo_tool] Scripted.pong) "ping?"
           (Scripted.connected [Scripted.echo_tool] Scripted.pong
              [Scripted.says (Scripted.asks [("echo", "{}"); ("echo", "5")]);
               Scripted.says (Scripted.plain (Some "first"));
               Scripted.says (Scripted.plain (Some "second"))])
           ("[Calling tool echo with args {}]" ++ nl ++ "first" ++ nl
            ++ "[Calling tool echo with args 5]" ++ nl ++ "second")%string).
  reflexivity.
Defined.

(** ** Tool results and follow-up answers that do not fit *)


(** X5. When a reached tool call succeeds on the server but its result
    has no "content" entry (a dict without that key, or no dict at all),
    the query raises [KeyError] or [TypeError] right after the tool call:
    the tool has run, no follow-up completion is requested and no answer
    is returned. *)
Theorem result_without_content_aborts
  (E : Env) (query : string) (st : State E) tools message l tool_call st1
  s args result w :
  reaches query st tools message l tool_call st1 ->
  session (self st) = Some s ->
  json_loads E (fn_arguments (tc_function tool_call)) = inr args ->
  call_tool E s (fn_name (tc_function tool_call)) args (world st1)
  = (Ok result, w) ->
  py_get result "content" = None ->
  exists e,
    process_query query st
    = (Raise e,
       mk_State w (self st1)
         (log st1 ++ [EvCallTool (fn_name (tc_function tool_call)) args]))
    /\ (exn_cls e = KeyError \/ exn_cls e = TypeError).
Proof.
  intros Hreach Hs Hargs Hcall Hmissing.
  pose proof (reaches_self _ _ _ _ _ _ _ Hreach) as Hself.
  apply reaches_continue in Hreach as (todo & after & ->).
  rewrite <- Hself in Hs.
  destruct (subscript_content_missing E result
              (mk_State w (self st1)
                 (log st1 ++ [EvCallTool (fn_name (tc_function tool_call)) args]))
              Hmissing) as (e & Hsub & Hcls).
  exists e. split; [| exact Hcls].
  apply bind_Raise. unfold dispatch.
  rewrite (bind_step _ _ _ _ _ (loads_step _ _ _ Hargs)).
  rewrite (bind_step _ _ _ _ _ (the_session_step _ _ _ Hs)).
  rewrite (bind_step _ _ _ _ _ (request_step _ _ _ _ _ Hcall)).
  apply bind_Raise. exact Hsub.
Qed.

Lemma result_without_content_aborts_witness :
  let st := Scripted.connected [Scripted.echo_tool] bare_result
              [Scripted.says (Scripted.asks [("echo", "{}")]);
               Scripted.says (Scripted.plain (Some "done"))] in
  let st1 := Scripted.state [Scripted.echo_tool] bare_result
               [Scripted.says (Scripted.plain (Some "done"))]
               [EvListTools;
                EvComplete (first_transcript "ping?")
                  (Some (available_tools [Scripted.echo_tool]))] in
  exists e,
    process_query "ping?" st
    = (Raise e,
       mk_State (world st1) (self st1)
         (log st1 ++ [EvCallTool "echo" (PDict [])]))
    /\ (exn_cls e = KeyError \/ exn_cls e = TypeError).
Proof.
  apply (result_without_content_aborts
           (Scripted.env [Scripted.echo_tool] bare_result) "ping?"
           (Scripted.connected [Scripted.echo_tool] bare_result
              [Scripted.says (Scripted.asks [("echo", "{}")]);
               Scripted.says (Scripted.plain (Some "done"))])
           [Scripted.echo_tool]
           (mk_ChatMessage "assistant"
              (Some [mk_ToolCall "call" (mk_FunctionCall "echo" "{}")])
              (Has None))
           (mk_Locals (first_transcript "ping?") [] [])
           (mk_ToolCall "call" (mk_FunctionCall "echo" "{}"))
           (Scripted.state [Scripted.echo_tool] bare_result
              [Scripted.says (Scripted.plain (Some "done"))]
              [EvListTools;
               EvComplete (first_transcript "ping?")
                 (Some (available_tools [Scripted.echo_tool]))])
           tt (PDict []) (PDict [("isError", PBool false)])
           [Scripted.says (Scripted.plain (Some "done"))]).
  - exists tt,
      [Scripted.says (Scripted.asks [("echo", "{}")]);
       Scripted.says (Scripted.plain (Some "done"))],
      (mk_Response [Scripted.asks [("echo", "{}")]]),
      [Scripted.says (Scripted.plain (Some "done"))],
      [], [], [], [].
    do 2 eexists. repeat split; reflexivity.
  - reflexivity.
  - reflexivity.
  - reflexivity.
  - reflexivity.
Defined.

(** X6. When the follow-up response of a reached tool call has no
    choices, the query raises [IndexError] after that completion request:
    the tool has run and the follow-up has been sent, but no answer is
    returned, not even the text gathered so far. *)
Theorem follow_up_without_choices_aborts
  (E : Env) (query : string) (st : State E) tools message l tool_call st1
  s args result w content w2 :
  reaches query st tools message l tool_call st1 ->
  session (self st) = Some s ->
  json_loads E (fn_arguments (tc_function tool_call)) = inr args ->
  call_tool E s (fn_name (tc_function tool_call)) args (world st1)
  = (Ok result, w) ->
  py_get result "content" = Some content ->
  completions_create E
    ((messages l ++ echo message) ++ [mk_Message "user" content]) None w
  = (Ok (mk_Response []), w2) ->
  process_query query st
  = (Raise (mk_exn IndexError "list index out of range"),
     mk_State w2 (self st1)
       (log st1
          ++ [EvCallTool (fn_name (tc_function tool_call)) args;
              EvComplete
                ((messages l ++ echo message) ++ [mk_Message "user" content])
                None])).
Proof.
  intros Hreach Hs Hargs Hcall Hcontent Hcreate.
  pose proof (reaches_self _ _ _ _ _ _ _ Hreach) as Hself.
  apply reaches_continue in Hreach as (todo & after & ->).
  rewrite <- Hself in Hs.
  apply bind_Raise. unfold dispatch.
  rewrite (bind_step _ _ _ _ _ (loads_step _ _ _ Hargs)).
  rewrite (bind_step _ _ _ _ _ (the_session_step _ _ _ Hs)).
  rewrite (bind_step _ _ _ _ _ (request_step _ _ _ _ _ Hcall)).
  rewrite (bind_step _ _ _ _ _ (subscript_content_found _ _ _ _ Hcontent)).
  erewrite bind_step; cycle 1.
  { apply request_step. cbn [world]. exact Hcreate. }
  unfold bind, first_content, raise. cbn [choices self log world].
  rewrite <- !app_assoc. reflexivity.
Qed.

Lemma follow_up_without_choices_aborts_witness :
  let st := Scripted.connected [Scripted.echo_tool] Scripted.pong
              [Scripted.says (Scripted.asks [("echo", "{}")]);
               Ok (mk_Response [])] in
  process_query "ping?" st
  = (Raise (mk_exn IndexError "list index out of range"),
     Scripted.state [Scripted.echo_tool] Scripted.pong []
       [EvListTools;
        EvComplete (first_transcript "ping?")
          (Some (available_tools [Scripted.echo_tool]));
        EvCallTool "echo" (PDict []);
        EvComplete [mk_Message "user" (PStr "ping?");
                    mk_Message "user" (PStr "pong")] None]).
Proof.
  apply (follow_up_without_choices_aborts
           (Scripted.env [Scripted.echo_tool] Scripted.pong) "ping?"
           (Scripted.connected [Scripted.echo_tool] Scripted.pong
              [Scripted.says (Scripted.asks [("echo", "{}")]);
               Ok (mk_Response [])])
           [Scripted.echo_tool]
           (mk_ChatMessage "assistant"
              (Some [mk_ToolCall "call" (mk_FunctionCall "echo" "{}")])
              (Has None))
           (mk_Locals (first_transcript "ping?") [] [])
           (mk_ToolCall "call" (mk_FunctionCall "echo" "{}"))
           (Scripted.state [Scripted.echo_tool] Scripted.pong
              [Ok (mk_Response [])]
              [EvListTools;
               EvComplete (first_transcript "ping?")
                 (Some (available_tools [Scripted.echo_tool]))])
           tt (PDict []) (PDict [("content", PStr "pong")])
           [Ok (mk_Response [])] (PStr "pong") []).
  - exists tt,
      [Scripted.says (Scripted.asks [("echo", "{}")]); Ok (mk_Response [])],
      (mk_Response [Scripted.asks [("echo", "{}")]]),
      [Ok (mk_Response [])],
      [], [], [], [].
    do 2 eexists. repeat split; reflexivity.
  - reflexivity.
  - reflexivity.
  - reflexivity.
  - reflexivity.
  - reflexivity.
Defined.

Lemma inspect_skipped_all (E : Env) (chs : list Choice) :
  forallb (fun ch => negb (is_assistant (ch_message ch)
                           && (nonempty (requested_calls (ch_message ch))
                               || has_content (ch_message ch)))) chs = true ->
  forall l (st : State E), for_each inspect chs l st = (Ok l, st).
Proof.
  induction chs as [| ch chs IH]; intros Hall l st; simpl; [reflexivity |].
  simpl in Hall. apply andb_true_iff in Hall as [Hch Hall].
  apply negb_true_iff in Hch.
  unfold bind, inspect at 1.
  destruct (is_assistant (ch_message ch)); cbn [andb] in *.
  - apply orb_false_iff in Hch as [-> ->]. cbn [ret]. apply IH, Hall.
  - cbn [ret]. apply IH, Hall.
Qed.

(** X7. Choices that are not assistant messages, and assistant messages
    with neither tool calls nor a content attribute, are passed over:
    when the first response holds only such choices (or none at all) the
    query returns the empty string after the tool listing and the one
    completion request, and no tool is called even where such a choice
    carries tool calls. *)
Theorem other_choices_are_ignored
  (E : Env) (query : string) (st : State E) s tools w1 response w2 :
  session (self st) = Some s ->
  list_tools E s (world st) = (Ok tools, w1) ->
  completions_create E (first_transcript query)
    (Some (available_tools tools)) w1 = (Ok response, w2) ->
  forallb (fun ch => negb (is_assistant (ch_message ch)
                           && (nonempty (requested_calls (ch_message ch))
                               || has_content (ch_message ch))))
          (choices response) = true ->
  process_query query st
  = (Ok "",
     mk_State w2 (self st)
       (log st ++ [EvListTools;
                   EvComplete (first_transcript query)
                     (Some (available_tools tools))])).
Proof.
  intros Hs Htools Hcreate Hskip.
  rewrite (process_query_step _ _ _ _ _ _ _ Hs Htools Hcreate).
  unfold bind. rewrite inspect_skipped_all by exact Hskip. reflexivity.
Qed.

Lemma other_choices_are_ignored_witness :
  let st := Scripted.connected [Scripted.echo_tool] Scripted.pong
              [Ok (mk_Response
                     [mk_Choice (mk_ChatMessage "tool"
                        (Some [mk_ToolCall "call" (mk_FunctionCall "echo" "{}")])
                        (Has (Some "ignored")))])] in
  process_query "ping?" st
  = (Ok "",
     Scripted.state [Scripted.echo_tool] Scripted.pong []
       [EvListTools;
        EvComplete (first_transcript "ping?")
          (Some (available_tools [Scripted.echo_tool]))]).
Proof.
  apply (other_choices_are_ignored
           (Scripted.env [Scripted.echo_tool] Scripted.pong) "ping?"
           (Scripted.connected [Scripted.echo_tool] Scripted.pong
              [Ok (mk_Response
                     [mk_Choice (mk_ChatMessage "tool"
                        (Some [mk_ToolCall "call" (mk_FunctionCall "echo" "{}")])
                        (Has (Some "ignored")))])])
           tt [Scripted.echo_tool]
           [Ok (mk_Response
                  [mk_Choice (mk_ChatMessage "tool"
                     (Some [mk_ToolCall "call" (mk_FunctionCall "echo" "{}")])
                     (Has (Some "ignored")))])]
           (mk_Response
              [mk_Choice (mk_ChatMessage "tool"
                 (Some [mk_ToolCall "call" (mk_FunctionCall "echo" "{}")])
                 (Has (Some "ignored")))])
           []);
    reflexivity.
Defined.

(** ** Connecting, step by step *)

Lemma endswith_js_not_py (path : string) :
  endswith path ".js" = true -> endswith path ".py" = false.
Proof.
  unfold endswith. cbn [String.length].
  destruct (3 <=? String.length path)%nat; [| discriminate].
  cbn [andb]. intros Hjs. apply String.eqb_eq in Hjs.
  rewrite Hjs. reflexivity.
Qed.

(** The five steps of [connect_to_server] in order; it stops at the first
    one that raises, with the fields assigned so far. *)
Lemma connect_to_server_cases (E : Env) (path : string) (st : State E) o st' :
  endswith path ".py" || endswith path ".js" = true ->
  connect_to_server path st = (o, st') ->
  let command := if endswith path ".py" then "python" else "node" in
  exists d,
    log st' = log st ++ EvSpawn command [path] :: d
    /\ ((d = [] /\ self st' = self st /\ succeeded o = false)
        \/ (d = [EvOpenSession]
            /\ (exists r w,
                  self st' = mk_MCPClient (session (self st)) (Some r) (Some w))
            /\ succeeded o = false)
        \/ ((d = [EvOpenSession; EvInitialize]
             \/ d = [EvOpenSession; EvInitialize; EvListTools])
            /\ (exists s r w,
                  self st' = mk_MCPClient (Some s) (Some r) (Some w))
            /\ succeeded o = false)
        \/ ((exists text,
               d = [EvOpenSession; EvInitialize; EvListTools; EvPrint text])
            /\ (exists s r w,
                  self st' = mk_MCPClient (Some s) (Some r) (Some w))
            /\ o = Ok tt)).
Proof.
  intros Hok H. unfold connect_to_server in H. rewrite Hok in H.
  cbn [negb] in H. cbv zeta.
  set (command := if endswith path ".py" then "python" else "node") in *.
  unfold bind at 1, request at 1 in H.
  destruct (stdio_client E command [path] (world st)) as [[[r w] | e] w1].
  2:{ inversion H; subst. simpl. exists []. split; [reflexivity |].
      left. auto. }
  unfold bind at 1, get_self at 1 in H.
  unfold bind at 1, set_self at 1 in H. cbn [self world log fst snd] in H.
  unfold bind at 1, request at 1 in H. cbn [self world log] in H.
  destruct (ClientSession E r w w1) as [[s | e] w2].
  2:{ inversion H; subst. simpl. rewrite <- app_assoc. simpl.
      eexists. split; [reflexivity |]. right. left. eauto. }
  unfold bind at 1, get_self at 1 in H.
  unfold bind at 1, set_self at 1 in H.
  cbn [self world log session stdio write] in H.
  unfold bind at 1, request at 1 in H. cbn [self world log] in H.
  destruct (initialize E s w2) as [[[] | e] w3].
  2:{ inversion H; subst. simpl. rewrite <- !app_assoc. simpl.
      eexists. split; [reflexivity |]. right. right. left. eauto 10. }
  unfold bind at 1, request at 1 in H. cbn [self world log] in H.
  destruct (list_tools E s w3) as [[tools | e] w4].
  2:{ inversion H; subst. simpl. rewrite <- !app_assoc. simpl.
      eexists. split; [reflexivity |]. right. right. left. eauto 10. }
  unfold print, emit in H. inversion H; subst. simpl.
  rewrite <- !app_assoc. simpl.
  eexists. split; [reflexivity |]. right. right. right. eauto 10.
Qed.

(** A connection that was set up holds a session. *)
Lemma connect_to_server_holds_session
  (E : Env) (path : string) (st st' : State E) :
  connect_to_server path st = (Ok tt, st') ->
  exists s, session (self st') = Some s.
Proof.
  intros H.
  destruct (endswith path ".py" || endswith path ".js") eqn:Hok.
  - destruct (connect_to_server_cases E path st _ st' Hok H)
      as (d & _ & [(_ & _ & Habs) | [(_ & _ & Habs)
                   | [(_ & _ & Habs) | (_ & (s & r & w & Hself) & _)]]]);
      try discriminate Habs.
    exists s. rewrite Hself. reflexivity.
  - unfold connect_to_server in H. rewrite Hok in H. discriminate H.
Qed.

(** X8. A path that is accepted always starts the server subprocess
    first, with the path as its only argument, whatever happens
    afterwards; the command is "python" exactly for a path that ends in
    ".py" and "node" exactly for one that ends in ".js". *)
Theorem connect_to_server_spawns
  (E : Env) (path : string) (st : State E) o st' :
  endswith path ".py" || endswith path ".js" = true ->
  connect_to_server path st = (o, st') ->
  exists command d,
    log st' = log st ++ EvSpawn command [path] :: d
    /\ (command = "python" <-> endswith path ".py" = true)
    /\ (command = "node" <-> endswith path ".js" = true).
Proof.
  intros Hok H.
  destruct (connect_to_server_cases E path st o st' Hok H) as (d & Hlog & _).
  eexists _, d. split; [exact Hlog |].
  destruct (endswith path ".py") eqn:Hpy.
  - split; [tauto |]. split; [discriminate |].
    intros Hjs. apply endswith_js_not_py in Hjs. congruence.
  - cbn [orb] in Hok. split; [split; discriminate | tauto].
Qed.

Lemma connect_to_server_spawns_witness :
  let st := Scripted.fresh [Scripted.echo_tool] Scripted.pong [] in
  exists command d,
    log (snd (connect_to_server "build/server.js" st))
    = log st ++ EvSpawn command ["build/server.js"] :: d
    /\ (command = "python" <-> endswith "build/server.js" ".py" = true)
    /\ (command = "node" <-> endswith "build/server.js" ".js" = true).
Proof.
  apply (connect_to_server_spawns
           (Scripted.env [Scripted.echo_tool] Scripted.pong) "build/server.js"
           (Scripted.fresh [Scripted.echo_tool] Scripted.pong [])
           (fst (connect_to_server "build/server.js"
                   (Scripted.fresh [Scripted.echo_tool] Scripted.pong []))));
    reflexivity.
Defined.

(** X9. When [connect_to_server] returns, the client holds the session
    and both ends of the transport, and it has done exactly five things
    in this order: started the subprocess, opened the session,
    initialized it, listed the tools once and printed one line. *)
Theorem connect_to_server_postcondition
  (E : Env) (path : string) (st : State E) st' :
  connect_to_server path st = (Ok tt, st') ->
  exists s r w command text,
    self st' = mk_MCPClient (Some s) (Some r) (Some w)
    /\ log st'
       = log st ++ [EvSpawn command [path]; EvOpenSession; EvInitialize;
                    EvListTools; EvPrint text].
Proof.
  intros H.
  destruct (endswith path ".py" || endswith path ".js") eqn:Hok.
  - destruct (connect_to_server_cases E path st _ st' Hok H)
      as (d & Hlog & [(_ & _ & Habs) | [(_ & _ & Habs)
                      | [(_ & _ & Habs) | ((text & ->) & (s & r & w & Hself) & _)]]]);
      try discriminate Habs.
    exists s, r, w. eexists _, text. split; [exact Hself | exact Hlog].
  - unfold connect_to_server in H. rewrite Hok in H. discriminate H.
Qed.

Lemma connect_to_server_postcondition_witness :
  let st := Scripted.fresh [Scripted.echo_tool] Scripted.pong [] in
  exists s r w command text,
    self (snd (connect_to_server "server.py" st))
    = mk_MCPClient (E := Scripted.env [Scripted.echo_tool] Scripted.pong)
        (Some s) (Some r) (Some w)
    /\ log (snd (connect_to_server "server.py" st))
       = log st ++ [EvSpawn command ["server.py"]; EvOpenSession; EvInitialize;
                    EvListTools; EvPrint text].
Proof.
  apply (connect_to_server_postcondition
           (Scripted.env [Scripted.echo_tool] Scripted.pong) "server.py"
           (Scripted.fresh [Scripted.echo_tool] Scripted.pong [])).
  reflexivity.
Defined.

Example handshake_fails :
  let run := connect_to_server "server.py" (init (E := no_handshake) tt) in
  fst run = Raise (mk_exn RuntimeError "handshake failed")
  /\ session (self (snd run)) = Some tt
  /\ log (snd run) = [EvSpawn "python" ["server.py"]; EvOpenSession; EvInitialize].
Proof. repeat split; reflexivity. Qed.

(** X10. [self.session] is assigned as soon as the session object
    exists, before the handshake.  So when [connect_to_server] raises
    from [initialize] or from [list_tools], the client is left holding
    that session; when it raises earlier (bad suffix, subprocess or
    session creation failing), [self.session] is what it was. *)
Theorem failed_handshake_leaves_session
  (E : Env) (path : string) (st : State E) e st' :
  connect_to_server path st = (Raise e, st') ->
  exists d,
    log st' = log st ++ d
    /\ ((In EvInitialize d /\ exists s, session (self st') = Some s)
        \/ (~ In EvInitialize d /\ session (self st') = session (self st))).
Proof.
  intros H.
  destruct (endswith path ".py" || endswith path ".js") eqn:Hok.
  - destruct (connect_to_server_cases E path st _ st' Hok H)
      as (d & Hlog & [(-> & Hself & _) | [(-> & (r & w & Hself) & _)
                      | [(Hd & (s & r & w & Hself) & _) | (_ & _ & Habs)]]]);
      try discriminate Habs;
      eexists; (split; [exact Hlog |]).
    + right. split; [| rewrite Hself; reflexivity].
      simpl. intros [Habs | []]. discriminate Habs.
    + right. split; [| rewrite Hself; reflexivity].
      simpl. intros [Habs | [Habs | []]]; discriminate Habs.
    + left. split; [| exists s; rewrite Hself; reflexivity].
      destruct Hd as [-> | ->]; simpl; auto.
  - unfold connect_to_server in H. rewrite Hok in H.
    inversion H; subst. exists []. rewrite app_nil_r. split; [reflexivity |].
    right. split; [intros [] | reflexivity].
Qed.

Lemma failed_handshake_leaves_session_witness :
  let st := init (E := no_handshake) tt in
  let st' := snd (connect_to_server "server.py" st) in
  exists d,
    log st' = log st ++ d
    /\ ((In EvInitialize d /\ exists s, session (self st') = Some s)
        \/ (~ In EvInitialize d /\ session (self st') = session (self st))).
Proof.
  apply (failed_handshake_leaves_session no_handshake "server.py"
           (init (E := no_handshake) tt)
           (mk_exn RuntimeError "handshake failed")).
  reflexivity.
Defined.

(** X11. After [connect_to_server] has returned, a query no longer
    fails for want of a session: whatever else happens, its first act is
    to list the tools. *)
Theorem connected_client_lists_tools
  (E : Env) (path query : string) (st st1 : State E) :
  connect_to_server path st = (Ok tt, st1) ->
  exists o st2 d,
    process_query query st1 = (o, st2)
    /\ log st2 = log st1 ++ EvListTools :: d.
Proof.
  intros H.
  assert (Hs : exists s, session (self st1) = Some s).
  { destruct (endswith path ".py" || endswith path ".js") eqn:Hok.
    - destruct (connect_to_server_cases E path st _ st1 Hok H)
        as (d & _ & [(_ & _ & Habs) | [(_ & _ & Habs)
                     | [(_ & _ & Habs) | (_ & (s & r & w & Hself) & _)]]]);
        try discriminate Habs.
      exists s. rewrite Hself. reflexivity.
    - unfold connect_to_server in H. rewrite Hok in H. discriminate H. }
  destruct Hs as [s Hs].
  destruct (process_query query st1) as [o st2] eqn:Hrun.
  exists o, st2.
  unfold process_query in Hrun.
  rewrite (bind_step _ _ _ _ _ (the_session_step _ _ _ Hs)) in Hrun.
  unfold bind at 1, request at 1 in Hrun.
  destruct (list_tools E s (world st1)) as [[tools | e] w1].
  - assert (Hgrows : exists d,
               log st2 = (log st1 ++ [EvListTools]) ++ d).
    { revert Hrun. generalize st2. generalize o.
      match goal with
      | |- forall o0 st0, ?m ?stA = _ -> _ =>
          change (forall o0 st0, m stA = (o0, st0) ->
                   exists d, log st0 = log stA ++ d)
      end.
      apply grows_bind; [apply grows_request | intros response].
      apply grows_bind; [| intros; apply grows_ret].
      apply grows_for_each. intros. apply grows_inspect. }
    destruct Hgrows as [d Hd]. exists d. split; [reflexivity |].
    rewrite Hd, <- app_assoc. reflexivity.
  - inversion Hrun; subst. exists []. split; reflexivity.
Qed.

Lemma connected_client_lists_tools_witness :
  let st := Scripted.fresh [Scripted.echo_tool] Scripted.pong
              [Scripted.says (Scripted.plain (Some "hi"))] in
  let st1 := snd (connect_to_server "server.py" st) in
  exists o st2 d,
    process_query "hello" st1 = (o, st2)
    /\ log st2 = log st1 ++ EvListTools :: d.
Proof.
  apply (connected_client_lists_tools
           (Scripted.env [Scripted.echo_tool] Scripted.pong) "server.py" "hello"
           (Scripted.fresh [Scripted.echo_tool] Scripted.pong
              [Scripted.says (Scripted.plain (Some "hi"))])).
  reflexivity.
Defined.

(** ** The interactive loop as a whole *)

Lemma read_loop_ends (E : Env) (lines : list string) :
  forall (st : State E) u st',
    read_loop lines st = (Ok u, st') -> existsb is_quit lines = true.
Proof.
  induction lines as [| line rest IH]; intros st u st' H; cbn [read_loop] in H.
  - unfold bind, emit in H. discriminate H.
  - unfold bind at 1, emit in H. rewrite lower_quit in H.
    cbn [existsb]. unfold is_quit at 1.
    destruct (spells "quit" (strip line)); [reflexivity |].
    cbn [orb]. unfold bind at 1 in H.
    match type of H with
    | context [try_except ?b ?h ?s] =>
        destruct (try_except b h s) as [[v | e] st1]
    end; [| discriminate H].
    apply IH in H. exact H.
Qed.



Lemma read_loop_stops_at_quit (E : Env) (before : list string) line after :
  is_quit line = true ->
  forall st : State E,
    read_loop (before ++ line :: after) st = read_loop (before ++ [line]) st.
Proof.
  intros Hquit.
  induction before as [| l before IH]; intros st; cbn [app read_loop].
  - unfold bind, emit. rewrite lower_quit. unfold is_quit in Hquit.
    rewrite Hquit. reflexivity.
  - unfold bind at 1 3, emit.
    destruct (String.eqb (lower (strip l)) "quit"); [reflexivity |].
    unfold bind.
    match goal with
    | |- context [try_except ?b ?h ?s] =>
        destruct (try_except b h s) as [[u | e] st1]
    end; [apply IH | reflexivity].
Qed.

(** X13. Input after a quit line is never read: whatever follows the
    quit line, the loop does exactly what it does when the quit line is
    the last line there is. *)
Theorem input_after_quit_is_unread
  (E : Env) (before : list string) (line : string) (after : list string)
  (st : State E) :
  is_quit line = true ->
  chat_loop (before ++ line :: after) st = chat_loop (before ++ [line]) st.
Proof.
  intros Hquit. unfold chat_loop, print. unfold bind at 1 2 3 4, emit.
  apply read_loop_stops_at_quit. exact Hquit.
Qed.

Lemma input_after_quit_is_unread_witness :
  let st := Scripted.connected [Scripted.echo_tool] Scripted.pong
              [Scripted.says (Scripted.plain (Some "hi"))] in
  chat_loop (["hello"] ++ " QUIT " :: ["more"; "quit"]) st
  = chat_loop (["hello"] ++ [" QUIT "]) st.
Proof.
  apply (input_after_quit_is_unread
           (Scripted.env [Scripted.echo_tool] Scripted.pong)
           ["hello"] " QUIT " ["more"; "quit"]).
  reflexivity.
Defined.

(** X14. The interactive loop never changes the client object and never
    sets a connection up: whatever its outcome, [self] is as before and
    the log has grown by prompts, printed lines and query requests only,
    with no subprocess started, no session opened, no handshake. *)
Theorem chat_loop_keeps_connection
  (E : Env) (lines : list string) (st : State E) o st' :
  chat_loop lines st = (o, st') ->
  self st' = self st
  /\ exists d, log st' = log st ++ d /\ forallb loop_event d = true.
Proof.
  intros H. exact (emits_chat_loop (E := E) lines _ _ _ H).
Qed.

Lemma chat_loop_keeps_connection_witness :
  let st := Scripted.connected [Scripted.echo_tool] Scripted.pong
              [Scripted.says (Scripted.asks [("echo", "{}")]);
               Scripted.says (Scripted.plain (Some "hi"))] in
  let st' := snd (chat_loop ["hello"; "quit"] st) in
  self st' = self st
  /\ exists d, log st' = log st ++ d /\ forallb loop_event d = true.
Proof.
  apply (chat_loop_keeps_connection
           (Scripted.env [Scripted.echo_tool] Scripted.pong)
           ["hello"; "quit"]
           (Scripted.connected [Scripted.echo_tool] Scripted.pong
              [Scripted.says (Scripted.asks [("echo", "{}")]);
               Scripted.says (Scripted.plain (Some "hi"))])
           (fst (chat_loop ["hello"; "quit"]
                   (Scripted.connected [Scripted.echo_tool] Scripted.pong
                      [Scripted.says (Scripted.asks [("echo", "{}")]);
                       Scripted.says (Scripted.plain (Some "hi"))])))).
  reflexivity.
Defined.

(** X15. When the query of a line returns an answer, the loop prints
    that answer once, with a newline in front of it, and goes on with the
    next line. *)
Theorem answer_is_printed
  (E : Env) (line : string) (rest : list string) (st st1 : State E) answer :
  String.eqb (lower (strip line)) "quit" = false ->
  process_query (strip line) (prompted st) = (Ok answer, st1) ->
  read_loop (line :: rest) st
  = read_loop rest
      (mk_State (world st1) (self st1)
         (log st1 ++ [EvPrint (nl ++ answer)%string])).
Proof.
  intros Hquit Hrun.
  cbn [read_loop]. unfold bind at 1. unfold emit. cbn [fst snd].
  rewrite Hquit. fold (prompted st).
  unfold bind at 1, try_except, answer_query, bind at 1.
  rewrite Hrun. reflexivity.
Qed.

Lemma answer_is_printed_witness :
  let st := Scripted.connected [Scripted.echo_tool] Scripted.pong
              [Scripted.says (Scripted.plain (Some "Paris."))] in
  let st1 := snd (process_query "capital?" (prompted st)) in
  read_loop ["  capital? "; "quit"] st
  = read_loop ["quit"]
      (mk_State (world st1) (self st1)
         (log st1 ++ [EvPrint (nl ++ "Paris.")%string])).
Proof.
  apply (answer_is_printed
           (Scripted.env [Scripted.echo_tool] Scripted.pong)
           "  capital? " ["quit"]
           (Scripted.connected [Scripted.echo_tool] Scripted.pong
              [Scripted.says (Scripted.plain (Some "Paris."))])
           _ "Paris.");
    reflexivity.
Defined.

(** X16. On a client that was never connected, every query line is
    answered by the one line
    "Error: 'NoneType' object has no attribute 'list_tools'": nothing is
    sent to the tool server or the completion endpoint, and the loop goes
    on with the next line. *)
Theorem unconnected_client_reports
  (E : Env) (line : string) (rest : list string) (st : State E) :
  session (self st) = None ->
  String.eqb (lower (strip line)) "quit" = false ->
  read_loop (line :: rest) st
  = read_loop rest
      (mk_State (world st) (self st)
         (log st
            ++ [EvInput (nl ++ "Query: ");
                EvPrint "Error: 'NoneType' object has no attribute 'list_tools'"])).
Proof.
  intros Hs Hquit.
  cbn [read_loop]. unfold bind at 1. unfold emit. cbn [fst snd].
  rewrite Hquit.
  unfold bind at 1, try_except, answer_query, bind at 1.
  unfold process_query, bind at 1, the_session, bind at 1, get_self.
  cbn [self]. rewrite Hs. unfold raise, report. cbn [exn_cls exn_str].
  cbn [is_UnicodeDecodeError is_Exception].
  unfold print, emit. cbn [world self log].
  rewrite <- app_assoc. reflexivity.
Qed.

Lemma unconnected_client_reports_witness :
  let st := Scripted.fresh [Scripted.echo_tool] Scripted.pong [] in
  read_loop ["hello"; "quit"] st
  = read_loop ["quit"]
      (mk_State (world st) (self st)
         (log st
            ++ [EvInput (nl ++ "Query: ");
                EvPrint "Error: 'NoneType' object has no attribute 'list_tools'"])).
Proof.
  apply (unconnected_client_reports
           (Scripted.env [Scripted.echo_tool] Scripted.pong)
           "hello" ["quit"]
           (Scripted.fresh [Scripted.echo_tool] Scripted.pong []));
    reflexivity.
Defined.

(** ** [main] *)

(** X17. Started with no server script argument, [main] prints the
    usage line and exits with status 1: no client is built, nothing is
    started or closed, no input is read. *)
Theorem main_without_argument
  (E : Env) aclose (argv lines : list string) (st : State E) :
  List.length argv < 2 ->
  main aclose argv lines st
  = (Raise (mk_exn SystemExit "1"),
     mk_State (world st) (self st) (log st ++ [EvPrint usage])).
Proof.
  intros Hlen. unfold main.
  destruct (Nat.ltb_spec (List.length argv) 2) as [_ | Hge]; [| lia].
  reflexivity.
Qed.

Lemma main_without_argument_witness :
  let st := Scripted.fresh [Scripted.echo_tool] Scripted.pong [] in
  main (quiet_close [Scripted.echo_tool] Scripted.pong) ["client.py"] ["quit"] st
  = (Raise (mk_exn SystemExit "1"),
     mk_State (world st) (self st) (log st ++ [EvPrint usage])).
Proof.
  apply (main_without_argument
           (Scripted.env [Scripted.echo_tool] Scripted.pong)
           (quiet_close [Scripted.echo_tool] Scripted.pong)
           ["client.py"] ["quit"]
           (Scripted.fresh [Scripted.echo_tool] Scripted.pong [])).
  simpl. lia.
Defined.

(** X18. Once the client object has been built, [cleanup] runs exactly
    once, last, on every path: whatever connecting and the interactive
    loop did and however they ended, the exit stack is closed on the
    client as they left it; [main] then ends the way they ended, unless
    closing itself raises, in which case that exception is the one that
    leaves [main]. *)
Theorem main_always_cleans_up
  (E : Env) aclose (argv lines : list string) (st : State E) w0 o st' :
  2 <= List.length argv ->
  AzureOpenAI E (world st) = (Ok tt, w0) ->
  main aclose argv lines st = (o, st') ->
  exists o1 st1 r,
    bind (connect_to_server (nth 1 argv "")) (fun _ => chat_loop lines)
      (mk_State w0 (mk_MCPClient None None None) (log st))
    = (o1, st1)
    /\ aclose (self st1) (world st1) = (r, world st')
    /\ self st' = self st1
    /\ log st' = log st1
    /\ o = match r with Ok _ => o1 | Raise e => Raise e end.
Proof.
  intros Hlen Hbuilt H. unfold main in H.
  destruct (Nat.ltb_spec (List.length argv) 2) as [Hlt | _]; [lia |].
  unfold bind at 1, new_client at 1 in H. rewrite Hbuilt in H.
  unfold try_finally, cleanup in H.
  match type of H with
  | context [bind ?m ?k ?s] => destruct (bind m k s) as [o1 st1] eqn:Hbody
  end.
  destruct (aclose (self st1) (world st1)) as [[[] | e] w] eqn:Hclose;
    inversion H; subst; clear H;
    do 3 eexists; (split; [reflexivity |]);
    cbn [world self log]; (split; [exact Hclose |]); auto.
Qed.

Lemma main_always_cleans_up_witness :
  let E := Scripted.env [Scripted.echo_tool] Scripted.pong in
  let st := Scripted.fresh [Scripted.echo_tool] Scripted.pong [] in
  let run := main (quiet_close [Scripted.echo_tool] Scripted.pong)
               ["client.py"; "server.rb"] ["quit"] st in
  exists o1 st1 r,
    bind (connect_to_server "server.rb") (fun _ => chat_loop ["quit"])
      (mk_State (world st) (mk_MCPClient None None None) (log st))
    = (o1, st1)
    /\ quiet_close [Scripted.echo_tool] Scripted.pong (self st1) (world st1)
       = (r, world (snd run))
    /\ self (snd run) = self st1
    /\ log (snd run) = log st1
    /\ fst run = match r with Ok _ => o1 | Raise e => Raise e end.
Proof.
  apply (main_always_cleans_up
           (Scripted.env [Scripted.echo_tool] Scripted.pong)
           (quiet_close [Scripted.echo_tool] Scripted.pong)
           ["client.py"; "server.rb"] ["quit"]
           (Scripted.fresh [Scripted.echo_tool] Scripted.pong [])
           []).
  - simpl. lia.
  - reflexivity.
  - reflexivity.
Defined.

(** X19. When the client object has been built and closing the exit
    stack does not raise, a server script path with the wrong suffix
    makes [main] fail with the [ValueError] of [connect_to_server], after
    [cleanup] has run on the still unconnected client; nothing is
    started, nothing is printed and no input is read. *)
Theorem main_rejects_other_suffixes
  (E : Env) aclose (program path : string) (more lines : list string)
  (st : State E) w0 w :
  endswith path ".py" = false ->
  endswith path ".js" = false ->
  AzureOpenAI E (world st) = (Ok tt, w0) ->
  aclose (mk_MCPClient None None None) w0 = (Ok tt, w) ->
  main aclose (program :: path :: more) lines st
  = (Raise (mk_exn ValueError "Server script must be a .py or .js file"),
     mk_State w (mk_MCPClient None None None) (log st)).
Proof.
  intros Hpy Hjs Hbuilt Hclose. unfold main.
  cbn [List.length Nat.ltb Nat.leb nth].
  unfold bind at 1, new_client at 1. rewrite Hbuilt.
  unfold try_finally.
  unfold bind at 1, connect_to_server. rewrite Hpy, Hjs. cbn [orb negb].
  unfold raise, cleanup. cbn [world self log]. rewrite Hclose. reflexivity.
Qed.

Lemma main_rejects_other_suffixes_witness :
  let st := Scripted.fresh [Scripted.echo_tool] Scripted.pong [] in
  main (quiet_close [Scripted.echo_tool] Scripted.pong)
    ["client.py"; "server.rb"] ["hello"; "quit"] st
  = (Raise (mk_exn ValueError "Server script must be a .py or .js file"),
     mk_State (world st) (mk_MCPClient None None None) (log st)).
Proof.
  apply (main_rejects_other_suffixes
           (Scripted.env [Scripted.echo_tool] Scripted.pong)
           (quiet_close [Scripted.echo_tool] Scripted.pong)
           "client.py" "server.rb" [] ["hello"; "quit"]
           (Scripted.fresh [Scripted.echo_tool] Scripted.pong [])
           []);
    reflexivity.
Defined.

(** X21. When building the client object raises (the completion client
    cannot be built from the process environment), [main] ends with that
    exception at once: the [try] statement is never entered, so nothing
    is started, no input is read, nothing is printed and [cleanup] is
    not run. *)
Theorem main_without_client
  (E : Env) aclose (argv lines : list string) (st : State E) e w0 :
  2 <= List.length argv ->
  AzureOpenAI E (world st) = (Raise e, w0) ->
  main aclose argv lines st
  = (Raise e, mk_State w0 (self st) (log st)).
Proof.
  intros Hlen Hbuilt. unfold main.
  destruct (Nat.ltb_spec (List.length argv) 2) as [Hlt | _]; [lia |].
  unfold bind at 1, new_client at 1. rewrite Hbuilt. reflexivity.
Qed.

Lemma main_without_client_witness :
  let st := init (E := no_credentials) tt in
  main close_quietly ["client.py"; "server.py"] ["hello"; "quit"] st
  = (Raise (mk_exn RuntimeError "Missing credentials"),
     mk_State (world st) (self st) (log st)).
Proof.
  apply (main_without_client no_credentials close_quietly
           ["client.py"; "server.py"] ["hello"; "quit"]
           (init (E := no_credentials) tt)
           (mk_exn RuntimeError "Missing credentials") tt).
  - simpl. lia.
  - reflexivity.
Defined.

(** X20. [main] returns normally only after a complete session: the
    connection was set up, some input line was a quit line, and the exit
    stack was closed, without raising, on a client that holds the
    session. *)
Theorem main_returns_after_quit
  (E : Env) aclose (argv lines : list string) (st : State E) st' :
  main aclose argv lines st = (Ok tt, st') ->
  2 <= List.length argv
  /\ existsb is_quit lines = true
  /\ (exists s, session (self st') = Some s)
  /\ exists w0, aclose (self st') w0 = (Ok tt, world st').
Proof.
  intros H.
  assert (Hlen : 2 <= List.length argv).
  { unfold main in H.
    destruct (Nat.ltb_spec (List.length argv) 2) as [Hlt | Hge]; [| exact Hge].
    discriminate H. }
  split; [exact Hlen |].
  unfold main in H.
  destruct (Nat.ltb_spec (List.length argv) 2) as [Hlt | _]; [lia |].
  unfold bind at 1, new_client at 1 in H.
  destruct (AzureOpenAI E (world st)) as [[[] | e] wb]; [| discriminate H].
  unfold try_finally, cleanup in H.
  match type of H with
  | context [bind ?m ?k ?s] => destruct (bind m k s) as [o1 st1] eqn:Hbody
  end.
  destruct (aclose (self st1) (world st1)) as [[[] | e] w] eqn:Hclose;
    [| discriminate H].
  inversion H; subst; clear H. cbn [self world].
  unfold bind in Hbody.
  destruct (connect_to_server (nth 1 argv "") _) as [[[] | e] st0] eqn:Hconnect;
    [| discriminate Hbody].
  apply connect_to_server_holds_session in Hconnect as (s & Hs).
  pose proof (emits_chat_loop (E := E) lines _ _ _ Hbody) as (Hself & _).
  split; [| split].
  - unfold chat_loop, print in Hbody. unfold bind at 1 2, emit in Hbody.
    apply read_loop_ends in Hbody. exact Hbody.
  - exists s. rewrite Hself. exact Hs.
  - exists (world st1). exact Hclose.
Qed.

Lemma main_returns_after_quit_witness :
  let st := Scripted.fresh [Scripted.echo_tool] Scripted.pong
              [Scripted.says (Scripted.plain (Some "hi"))] in
  let st' := snd (main (quiet_close [Scripted.echo_tool] Scripted.pong)
                    ["client.py"; "server.py"] ["hello"; "Quit"; "unread"] st) in
  2 <= List.length ["client.py"; "server.py"]
  /\ existsb is_quit ["hello"; "Quit"; "unread"] = true
  /\ (exists s, session (self st') = Some s)
  /\ exists w0,
       quiet_close [Scripted.echo_tool] Scripted.pong (self st') w0
       = (Ok tt, world st').
Proof.
  apply (main_returns_after_quit
           (Scripted.env [Scripted.echo_tool] Scripted.pong)
           (quiet_close [Scripted.echo_tool] Scripted.pong)
           ["client.py"; "server.py"] ["hello"; "Quit"; "unread"]
           (Scripted.fresh [Scripted.echo_tool] Scripted.pong
              [Scripted.says (Scripted.plain (Some "hi"))])).
  reflexivity.
Defined.

Example whole_session :
  let run := main (quiet_close [Scripted.echo_tool] Scripted.pong)
               ["client.py"; "server.py"] ["hello"; "Quit"; "unread"]
               (Scripted.fresh [Scripted.echo_tool] Scripted.pong
                  [Scripted.says (Scripted.plain (Some "hi"))]) in
  fst run = Ok tt
  /\ log (snd run)
     = [EvSpawn "python" ["server.py"]; EvOpenSession; EvInitialize;
        EvListTools;
        EvPrint (nl ++ "Connected to server with tools: ['echo']");
        EvPrint (nl ++ "MCP Client Started!");
        EvPrint "Type your queries or 'quit' to exit.";
        EvInput (nl ++ "Query: ");
        EvListTools;
        EvComplete [mk_Message "user" (PStr "hello")]
          (Some (available_tools [Scripted.echo_tool]));
        EvPrint (nl ++ "hi");
        EvInput (nl ++ "Query: ")].
Proof. split; reflexivity. Qed.
